(** * CANopenTerm: the CAN connection monitor, frame I/O and SDO write

    A shallow embedding of [src/can.c] and [src/sdo_client.c].

    The PCAN-Basic driver, SDL and the logger are external: every call
    into them is recorded, in program order, in a trace, and what the
    driver answers is read from an oracle that sees the calls made so
    far.  The single [core_t] object of the program lives in the world;
    a [core_t*] is either [NULL] or points at it. *)

From Stdlib Require Import ZArith List String Bool Lia.
From stdpp Require Import base numbers list.
Import ListNotations.
Local Open Scope Z_scope.

(** ** Fixed-width integers *)

(** Conversion to the SDL types [Uint8], [Uint16], [Uint32] and to [int]. *)
Definition to_Uint8 (x : Z) : Z := x mod 2 ^ 8.
Definition to_Uint16 (x : Z) : Z := x mod 2 ^ 16.
Definition to_Uint32 (x : Z) : Z := x mod 2 ^ 32.
Definition to_int (x : Z) : Z := (x + 2 ^ 31) mod 2 ^ 32 - 2 ^ 31.

(** ** The PCAN-Basic interface (PCANBasic.h, external) *)

(** The bit-rate codes the monitor's switch names. *)
Inductive TPCANBaudrate : Set :=
| PCAN_BAUD_1M | PCAN_BAUD_800K | PCAN_BAUD_500K | PCAN_BAUD_250K
| PCAN_BAUD_125K | PCAN_BAUD_100K | PCAN_BAUD_95K | PCAN_BAUD_83K
| PCAN_BAUD_50K | PCAN_BAUD_47K | PCAN_BAUD_33K | PCAN_BAUD_20K
| PCAN_BAUD_10K | PCAN_BAUD_5K.

Inductive TPCANHandle : Set := PCAN_USBBUS1.
Inductive TPCANType : Set := PCAN_USB.

Module TPCANMsg.
(** [DWORD ID; BYTE MSGTYPE; BYTE LEN; BYTE DATA[8]]. *)
Record t : Set := mk { ID : Z; MSGTYPE : Z; LEN : Z; DATA : list Z }.

(** [TPCANMsg m = { 0 };] *)
Definition zero : t := mk 0 0 0 (replicate 8 0).
End TPCANMsg.
Abbreviation TPCANMsg := TPCANMsg.t.

(** ** Messages and the core object *)

Module can_message.
(** [can_message_t] of can.h: [Uint16 id; Uint8 length; Uint8 data[8]]. *)
Record t : Set := mk { id : Z; length : Z; data : list Z }.

(** [can_message_t message = { 0 };] *)
Definition zero : t := mk 0 0 (replicate 8 0).
End can_message.
Abbreviation can_message_t := can_message.t.

Module core.
(** The fields of [core_t] (core.h) that can.c reads or writes.
    [SDL_bool] is [bool]: [SDL_TRUE] is [true]. *)
Record t : Set := mk {
  is_running : bool;
  is_can_initialised : bool;
  can_status : Z;
  baud_rate : Z;
  can_monitor_th : Z
}.

Definition set_is_can_initialised (v : bool) (c : t) : t :=
  mk (is_running c) v (can_status c) (baud_rate c) (can_monitor_th c).
Definition set_can_status (v : Z) (c : t) : t :=
  mk (is_running c) (is_can_initialised c) v (baud_rate c) (can_monitor_th c).
Definition set_baud_rate (v : Z) (c : t) : t :=
  mk (is_running c) (is_can_initialised c) (can_status c) v (can_monitor_th c).
Definition set_can_monitor_th (v : Z) (c : t) : t :=
  mk (is_running c) (is_can_initialised c) (can_status c) (baud_rate c) v.
Definition set_is_running (v : bool) (c : t) : t :=
  mk v (is_can_initialised c) (can_status c) (baud_rate c) (can_monitor_th c).
End core.
Abbreviation core_t := core.t.

(** A [core_t*]. *)
Inductive core_ptr : Set := NULL | CORE.

(** ** Calls that leave the program *)

Inductive log_level : Set := LOG_SUCCESS | LOG_WARNING.

Inductive call : Set :=
| CAN_Initialize (channel : TPCANHandle) (btr0btr1 : TPCANBaudrate)
                 (hw_type : TPCANType) (io_port interrupt : Z)
| CAN_Uninitialize (channel : TPCANHandle)
| CAN_GetStatus (channel : TPCANHandle)
| CAN_Write (channel : TPCANHandle) (message_buffer : TPCANMsg)
| CAN_Read (channel : TPCANHandle)
| CAN_GetErrorText (error : Z) (language : Z)
| c_log (level : log_level) (text : string)
| c_print_prompt
| SDL_Delay (ms : Z)
| SDL_CreateThread (name : string)
| SDL_DetachThread (thread : Z)
| SDL_LogWarn (category : Z) (fmt : string) (error : Z)
| table_print_header
| table_print_row (column1 column2 column3 : string)
| table_print_divider
| table_print_footer.

(** What the outside answers: the value a call returns, and the frame
    [CAN_Read] leaves in the caller's buffer; both may depend on every
    call made before. *)
Record driver : Type := {
  answer : list call -> call -> Z;
  read_buffer : list call -> TPCANMsg
}.

(** ** The world and the monad of the program *)

Record world : Set := { the_core : core_t; trace : list call }.

Definition M (A : Type) : Type := world -> A * world.

Definition ret {A} (a : A) : M A := fun w => (a, w).
Definition bind {A B} (m : M A) (k : A -> M B) : M B :=
  fun w => let (a, w') := m w in k a w'.

Declare Scope prog_scope.
Delimit Scope prog_scope with prog.
Notation "x <- m ;; k" := (bind m (fun x => k))
  (at level 100, m at next level, right associativity) : prog_scope.
Notation "m ;; k" := (bind m (fun _ => k))
  (at level 100, right associativity) : prog_scope.
Local Open Scope prog_scope.

(** Read the core object; apply a field update to it. *)
Definition load : M core_t := fun w => (the_core w, w).
Definition store (f : core_t -> core_t) : M unit :=
  fun w => (tt, {| the_core := f (the_core w); trace := trace w |}).

(** ** Reading a trace *)

(** The identifiers of the frames handed to [CAN_Write], oldest first. *)
Definition written_ids (t : list call) : list Z :=
  flat_map (fun c => match c with
                     | CAN_Write _ m => [TPCANMsg.ID m]
                     | _ => []
                     end) t.

(** How often the driver's write primitive was called. *)
Definition driver_writes (t : list call) : nat := List.length (written_ids t).

(** The bit rates handed to [CAN_Initialize], oldest first. *)
Definition open_rates (t : list call) : list TPCANBaudrate :=
  flat_map (fun c => match c with
                     | CAN_Initialize _ rate _ _ _ => [rate]
                     | _ => []
                     end) t.

(** The last frame handed to [CAN_Write], if any. *)
Definition last_written (t : list call) : option TPCANMsg :=
  fold_left (fun acc c => match c with
                          | CAN_Write _ m => Some m
                          | _ => acc
                          end) t None.

(** The frames handed to [CAN_Write], oldest first. *)
Definition written_frames (t : list call) : list TPCANMsg :=
  flat_map (fun c => match c with
                     | CAN_Write _ m => [m]
                     | _ => []
                     end) t.

(** The arguments of the [SDL_Delay] calls, oldest first. *)
Definition delays (t : list call) : list Z :=
  flat_map (fun c => match c with
                     | SDL_Delay ms => [ms]
                     | _ => []
                     end) t.

(** The channels handed to [CAN_Uninitialize], and those handed to
    [CAN_GetStatus], oldest first. *)
Definition uninitialize_calls (t : list call) : list TPCANHandle :=
  flat_map (fun c => match c with
                     | CAN_Uninitialize ch => [ch]
                     | _ => []
                     end) t.
Definition status_polls (t : list call) : list TPCANHandle :=
  flat_map (fun c => match c with
                     | CAN_GetStatus ch => [ch]
                     | _ => []
                     end) t.

(** The status codes reported through [SDL_LogWarn], oldest first. *)
Definition sdl_warnings (t : list call) : list Z :=
  flat_map (fun c => match c with
                     | SDL_LogWarn _ _ error => [error]
                     | _ => []
                     end) t.

(** The first column of the table rows whose third column reads
    "Active", oldest first. *)
Definition active_rows (t : list call) : list string :=
  flat_map (fun c => match c with
                     | table_print_row column1 _ column3 =>
                         if String.eqb column3 "Active" then [column1] else []
                     | _ => []
                     end) t.

(** The handles handed to [SDL_DetachThread], oldest first. *)
Definition detached (t : list call) : list Z :=
  flat_map (fun c => match c with
                     | SDL_DetachThread thread => [thread]
                     | _ => []
                     end) t.

(** How many log lines of a level the trace holds. *)
Definition logs (level : log_level) (t : list call) : nat :=
  List.length
    (flat_map (fun c => match c, level with
                        | c_log LOG_SUCCESS text, LOG_SUCCESS => [text]
                        | c_log LOG_WARNING text, LOG_WARNING => [text]
                        | _, _ => []
                        end) t).

(** The first column of the fourteen rate rows of the help table, in
    the order [can_print_baud_rate_help] prints them. *)
Definition help_commands : list string :=
  ["  0"; "  1"; "  2"; "  3"; "  4"; "  5"; "  6"; "  7"; "  8"; "  9";
   " 10"; " 11"; " 12"; " 13"]%string.

(** The number a list of bytes spells, most significant byte first. *)
Definition big_endian (bytes : list Z) : Z :=
  fold_left (fun acc b => acc * 256 + b) bytes 0.

(** ** Some drivers *)

(** A driver that answers every call with the same status and hands
    back, on [CAN_Read], the frame written last: the transfer is the
    identity. *)
Definition loopback (status : Z) : driver :=
  {| answer := fun _ _ => status;
     read_buffer := fun t => default TPCANMsg.zero (last_written t) |}.

(** A core object with [is_running] set and the channel closed, and an
    empty history. *)
Definition fresh_core : core_t := core.mk true false 0 0 0.
Definition fresh_world : world := {| the_core := fresh_core; trace := [] |}.

(** The channel open at index 3, nothing called yet. *)
Definition connected_world : world :=
  {| the_core := core.mk true true 0 3 0; trace := [] |}.

(** The monitor told to use index 14 while the channel is closed. *)
Definition index14_world : world :=
  {| the_core := core.mk true false 0 14 0; trace := [] |}.

(** The monitor after one failed open attempt (status 0x1400), with
    [is_running] cleared since. *)
Definition stopped_retrying_world : world :=
  {| the_core := core.mk false false 0x1400 3 0;
     trace := [CAN_Initialize PCAN_USBBUS1 PCAN_BAUD_250K PCAN_USB 0 0;
               CAN_GetErrorText 0x1400 0x09;
               SDL_Delay 10] |}.

(** A standard frame, and a message whose identifier needs 12 bits. *)
Definition frame_0x123 : can_message_t :=
  can_message.mk 0x123 8 [0x11; 0x22; 0x33; 0x44; 0x55; 0x66; 0x77; 0x88].
Definition frame_0x800 : can_message_t :=
  can_message.mk 0x800 2 [0x01; 0x02; 0; 0; 0; 0; 0; 0].

(** The channel open while shutdown has been asked for: the monitor
    stands at the inner test after a successful open. *)
Definition stopped_connected_world : world :=
  {| the_core := core.mk false true 0 3 0;
     trace := [CAN_Initialize PCAN_USBBUS1 PCAN_BAUD_250K PCAN_USB 0 0;
               CAN_GetErrorText 0 0x09;
               c_log LOG_SUCCESS "CAN successfully initialised";
               c_print_prompt;
               SDL_Delay 10] |}.

(** A wire frame of standard type, as a driver may hand it back. *)
Definition wire_0x123 : TPCANMsg :=
  TPCANMsg.mk 0x123 0 8 [0x11; 0x22; 0x33; 0x44; 0x55; 0x66; 0x77; 0x88].

Section Program.

(** Status codes and the frame type of PCANBasic.h. *)
Variables PCAN_ERROR_OK PCAN_ERROR_ILLHW PCAN_MESSAGE_STANDARD : Z.

Variable drv : driver.

(** Make an outside call: record it, return the driver's answer. *)
Definition invoke (c : call) : M Z :=
  fun w => (answer drv (trace w) c,
            {| the_core := the_core w; trace := trace w ++ [c] |}).

(** *** can.c *)

(** [SDL_CreateThread] starts [can_monitor] on the same core object, in
    a thread of its own; the call is recorded here, and what the started
    thread does is [can_monitor] below. *)
Definition can_init (core : core_ptr) : M unit :=
  match core with
  | NULL => ret tt
  | CORE =>
      th <- invoke (SDL_CreateThread "CAN monitor thread") ;;
      store (core.set_can_monitor_th th)
  end.

Definition can_deinit (core : core_ptr) : M unit :=
  match core with
  | NULL => ret tt
  | CORE =>
      store (core.set_can_status 0) ;;
      store (core.set_is_can_initialised false) ;;
      invoke (CAN_Uninitialize PCAN_USBBUS1) ;;
      ret tt
  end.

Definition is_can_initialised (core : core_ptr) : M bool :=
  match core with
  | NULL => ret false
  | CORE => c <- load ;; ret (core.is_can_initialised c)
  end.

Definition can_quit (core : core_ptr) : M unit :=
  match core with
  | NULL => ret tt
  | CORE =>
      b <- is_can_initialised core ;;
      (if b then can_deinit core else ret tt) ;;
      c <- load ;;
      invoke (SDL_DetachThread (core.can_monitor_th c)) ;;
      ret tt
  end.

(** [for (index = 0; index < 8; index += 1) dst[index] = src[index];] *)
Definition copy_data (src dst : list Z) : list Z :=
  fold_left (fun (dst : list Z) (index : nat) => <[index := src !!! index]> dst)
            (seq 0 8) dst.

(** The wire frame [can_write] builds. *)
Definition encode (message : can_message_t) : TPCANMsg :=
  let pcan_message := TPCANMsg.zero in
  TPCANMsg.mk (can_message.id message)
              PCAN_MESSAGE_STANDARD
              (can_message.length message)
              (copy_data (can_message.data message) (TPCANMsg.DATA pcan_message)).

Definition can_write (message : can_message_t) : M Z :=
  st <- invoke (CAN_Write PCAN_USBBUS1 (encode message)) ;;
  ret (to_Uint32 st).

(** What [can_read] stores through [message] from the driver's frame. *)
Definition decode (pcan_message : TPCANMsg) (message : can_message_t)
  : can_message_t :=
  can_message.mk (to_Uint16 (TPCANMsg.ID pcan_message))
                 (TPCANMsg.LEN pcan_message)
                 (copy_data (TPCANMsg.DATA pcan_message) (can_message.data message)).

Definition can_read (message : can_message_t) : M (Z * can_message_t) :=
  fun w =>
    let pcan_message := read_buffer drv (trace w) in
    let (can_status, w') := invoke (CAN_Read PCAN_USBBUS1) w in
    ((can_status, decode pcan_message message), w').

Definition can_set_baud_rate (command : Z) (core : core_ptr) : M unit :=
  match core with
  | NULL => ret tt
  | CORE =>
      store (core.set_baud_rate command) ;;
      b <- is_can_initialised core ;;
      if b then can_deinit core else ret tt
  end.

(** The four integer arguments are what [luaL_checkinteger] returns. *)
Definition lua_can_write (arg1 arg2 arg3 arg4 : Z) : M Z :=
  let can_id := to_int arg1 in
  let length := to_int arg2 in
  let data_d0_d3 := to_Uint32 arg3 in
  let data_d4_d7 := to_Uint32 arg4 in
  let message := can_message.zero in
  let d := can_message.data message in
  let d := <[3%nat := Z.land data_d0_d3 0xff]> d in
  let d := <[2%nat := Z.land (Z.shiftr data_d0_d3 8) 0xff]> d in
  let d := <[1%nat := Z.land (Z.shiftr data_d0_d3 16) 0xff]> d in
  let d := <[0%nat := Z.land (Z.shiftr data_d0_d3 24) 0xff]> d in
  let d := <[7%nat := Z.land data_d4_d7 0xff]> d in
  let d := <[6%nat := Z.land (Z.shiftr data_d4_d7 8) 0xff]> d in
  let d := <[5%nat := Z.land (Z.shiftr data_d4_d7 16) 0xff]> d in
  let d := <[4%nat := Z.land (Z.shiftr data_d4_d7 24) 0xff]> d in
  let message := can_message.mk (to_Uint16 can_id) (to_Uint8 length) d in
  st <- can_write message ;;
  if negb (0 =? st) then ret 0 else ret 1.

(** [char status[14][7]] after the loop of [can_print_baud_rate_help]:
    which row of the help table is marked. *)
Definition status_index (baud_rate : Z) : Z :=
  if 13 <? baud_rate then 13 else baud_rate.

Definition status (baud_rate : Z) (index : Z) : string :=
  if status_index baud_rate =? index then "Active"%string else " "%string.

(** [can_print_baud_rate_help] reads [core->baud_rate] without testing
    the pointer: the definition is the function on the core object, and
    gives no account of a NULL argument. *)
Definition can_print_baud_rate_help (core : core_ptr) : M unit :=
  c <- load ;;
  let status := status (core.baud_rate c) in
  invoke table_print_header ;;
  invoke (table_print_row "CMD" "Description" "Status") ;;
  invoke table_print_divider ;;
  invoke (table_print_row "  0" "1 MBit/s" (status 0)) ;;
  invoke (table_print_row "  1" "800 kBit/s" (status 1)) ;;
  invoke (table_print_row "  2" "500 kBit/s" (status 2)) ;;
  invoke (table_print_row "  3" "250 kBit/s" (status 3)) ;;
  invoke (table_print_row "  4" "125 kBit/s" (status 4)) ;;
  invoke (table_print_row "  5" "100 kBit/s" (status 5)) ;;
  invoke (table_print_row "  6" "95,238 kBit/s" (status 6)) ;;
  invoke (table_print_row "  7" "83,333 kBit/s" (status 7)) ;;
  invoke (table_print_row "  8" "50 kBit/s" (status 8)) ;;
  invoke (table_print_row "  9" "47,619 kBit/s" (status 9)) ;;
  invoke (table_print_row " 10" "33,333 kBit/s" (status 10)) ;;
  invoke (table_print_row " 11" "20 kBit/s" (status 11)) ;;
  invoke (table_print_row " 12" "10 kBit/s" (status 12)) ;;
  invoke (table_print_row " 13" "5 kBit/s" (status 13)) ;;
  invoke table_print_footer ;;
  ret tt.

(** *** The monitor thread *)

(** [switch (core->baud_rate)] of [can_monitor]. *)
Definition switch_baud_rate (baud_rate : Z) : TPCANBaudrate :=
  match baud_rate with
  | 0 => PCAN_BAUD_1M
  | 1 => PCAN_BAUD_800K
  | 2 => PCAN_BAUD_500K
  | 4 => PCAN_BAUD_125K
  | 5 => PCAN_BAUD_100K
  | 6 => PCAN_BAUD_95K
  | 7 => PCAN_BAUD_83K
  | 8 => PCAN_BAUD_50K
  | 9 => PCAN_BAUD_47K
  | 10 => PCAN_BAUD_33K
  | 11 => PCAN_BAUD_20K
  | 12 => PCAN_BAUD_10K
  | 13 => PCAN_BAUD_5K
  | _ (* case 3: default: *) => PCAN_BAUD_250K
  end.

(** The body of the inner [while]: one attempt to open the channel. *)
Definition attempt_open : M unit :=
  c <- load ;;
  let baud_rate := switch_baud_rate (core.baud_rate c) in
  st <- invoke (CAN_Initialize PCAN_USBBUS1 baud_rate PCAN_USB 0 0) ;;
  store (core.set_can_status st) ;;
  c <- load ;;
  invoke (CAN_GetErrorText (core.can_status c) 0x09) ;;
  c <- load ;;
  (if Z.land (core.can_status c) PCAN_ERROR_OK =? core.can_status c
   then invoke (c_log LOG_SUCCESS "CAN successfully initialised") ;;
        store (core.set_is_can_initialised true) ;;
        invoke c_print_prompt ;;
        ret tt
   else ret tt) ;;
  invoke (SDL_Delay 10) ;;
  ret tt.

(** The open attempt in two halves, for a call of the main thread that
    lands between them: up to the return of [CAN_Initialize] and the
    store of its status, and from [CAN_GetErrorText] to the end of the
    tick. *)
Definition attempt_open_call : M unit :=
  c <- load ;;
  let baud_rate := switch_baud_rate (core.baud_rate c) in
  st <- invoke (CAN_Initialize PCAN_USBBUS1 baud_rate PCAN_USB 0 0) ;;
  store (core.set_can_status st).

Definition attempt_open_rest : M unit :=
  c <- load ;;
  invoke (CAN_GetErrorText (core.can_status c) 0x09) ;;
  c <- load ;;
  (if Z.land (core.can_status c) PCAN_ERROR_OK =? core.can_status c
   then invoke (c_log LOG_SUCCESS "CAN successfully initialised") ;;
        store (core.set_is_can_initialised true) ;;
        invoke c_print_prompt ;;
        ret tt
   else ret tt) ;;
  invoke (SDL_Delay 10) ;;
  ret tt.

(** The rest of the outer [while] body: poll the adapter's status. *)
Definition poll_status : M unit :=
  st <- invoke (CAN_GetStatus PCAN_USBBUS1) ;;
  store (core.set_can_status st) ;;
  c <- load ;;
  (if PCAN_ERROR_ILLHW =? core.can_status c
   then store (core.set_can_status 0) ;;
        store (core.set_is_can_initialised false) ;;
        invoke (CAN_Uninitialize PCAN_USBBUS1) ;;
        invoke (c_log LOG_WARNING "CAN de-initialised: USB-dongle removed?") ;;
        invoke c_print_prompt ;;
        ret tt
   else ret tt) ;;
  invoke (SDL_Delay 10) ;;
  ret tt.

(** Where the thread stands between two ticks: at the test of the
    outer [while], at the test of the inner [while] (after [continue]),
    or returned. *)
Inductive monitor_pc : Set :=
| AtOuter
| AtInner
| Returned (code : Z).

(** [while (SDL_FALSE == is_can_initialised(core)) { ...; continue; }]
    followed by the rest of the outer body. *)
Definition inner_while : M monitor_pc :=
  b <- is_can_initialised CORE ;;
  if negb b
  then attempt_open ;; ret AtInner
  else poll_status ;; ret AtOuter.

(** One tick: from a loop test to the end of the next [SDL_Delay(10)],
    or to the [return]. *)
Definition monitor_tick (pc : monitor_pc) : M monitor_pc :=
  match pc with
  | AtOuter =>
      c <- load ;;
      if core.is_running c then inner_while else ret (Returned 0)
  | AtInner => inner_while
  | Returned code => ret (Returned code)
  end.

(** The part of [can_monitor] before the loop. *)
Definition can_monitor_entry (core_pt : core_ptr) : M monitor_pc :=
  match core_pt with
  | NULL => ret (Returned 1)
  | CORE => store (core.set_baud_rate 3) ;; ret AtOuter
  end.

Fixpoint monitor_run (ticks : nat) (pc : monitor_pc) : M monitor_pc :=
  match ticks with
  | O => ret pc
  | S n => pc' <- monitor_tick pc ;; monitor_run n pc'
  end.

(** [can_monitor], run for a number of ticks. *)
Definition can_monitor (ticks : nat) (core_pt : core_ptr) : M monitor_pc :=
  pc <- can_monitor_entry core_pt ;;
  monitor_run ticks pc.

(** *** sdo_client.c *)

(** [can_message] is not initialised: [DATA] keeps what the stack held,
    given here as [stack]. *)
Definition write_sdo (index sub_index data_type data node_id : Z)
           (stack : list Z) : M Z :=
  let node_id :=
    if 0x7f <? node_id then to_Uint8 (0x00 + Z.rem node_id 0x7f) else node_id in
  let can_message :=
    TPCANMsg.mk (to_Uint32 (0x600 + node_id)) PCAN_MESSAGE_STANDARD
                (to_Uint8 data_type) stack in
  st <- invoke (CAN_Write PCAN_USBBUS1 can_message) ;;
  let can_status := to_Uint32 st in
  (if negb (PCAN_ERROR_OK =? can_status)
   then invoke (CAN_GetErrorText can_status 0x09) ;;
        invoke (SDL_LogWarn 0 "Could not write SDO: %s" can_status) ;;
        ret tt
   else ret tt) ;;
  ret can_status.

(** The enumerated bit rates in the order of the rows of the help table:
    command 0 is 1 MBit/s, command 13 is 5 kBit/s. *)
Definition baud_rate_table : list TPCANBaudrate :=
  [PCAN_BAUD_1M; PCAN_BAUD_800K; PCAN_BAUD_500K; PCAN_BAUD_250K;
   PCAN_BAUD_125K; PCAN_BAUD_100K; PCAN_BAUD_95K; PCAN_BAUD_83K;
   PCAN_BAUD_50K; PCAN_BAUD_47K; PCAN_BAUD_33K; PCAN_BAUD_20K;
   PCAN_BAUD_10K; PCAN_BAUD_5K].

(** The monitor is about to run the body of the inner or of the outer
    loop: it stands at the inner test, or at the outer test with
    [is_running] set. *)
Definition in_loop (pc : monitor_pc) (w : world) : Prop :=
  pc = AtInner \/ (pc = AtOuter /\ core.is_running (the_core w) = true).

(** Modelled from the spec: process shutdown clears the shared flag
    [is_running] (the code that does it is in core.c).  Together with a
    call of [can_set_baud_rate], this is what the main thread may do to
    the core object between two ticks of the monitor. *)
Inductive interference : world -> world -> Prop :=
| main_stops (w : world) :
    interference w {| the_core := core.set_is_running false (the_core w);
                      trace := trace w |}
| main_sets_baud_rate (command : Z) (w : world) :
    0 <= command < 256 ->
    interference w (snd (can_set_baud_rate command CORE w)).

(** The states the monitor thread can be in, started on the world [w0]. *)
Inductive reachable (w0 : world) : monitor_pc -> world -> Prop :=
| reach_entry :
    reachable w0 (fst (can_monitor_entry CORE w0))
                 (snd (can_monitor_entry CORE w0))
| reach_tick (pc : monitor_pc) (w : world) :
    reachable w0 pc w ->
    reachable w0 (fst (monitor_tick pc w)) (snd (monitor_tick pc w))
| reach_interference (pc : monitor_pc) (w w' : world) :
    reachable w0 pc w -> interference w w' -> reachable w0 pc w'.

(** The calls of a successful open, after [CAN_GetErrorText]. *)
Definition open_success_calls (ok : bool) : list call :=
  if ok
  then [c_log LOG_SUCCESS "CAN successfully initialised"; c_print_prompt]
  else [].

(** The calls of the hardware-removed branch of the status poll. *)
Definition removal_calls : list call :=
  [CAN_Uninitialize PCAN_USBBUS1;
   c_log LOG_WARNING "CAN de-initialised: USB-dongle removed?";
   c_print_prompt].

(** A frame as the data model has it: an 11-bit identifier, a length of
    at most 8 and the 8 bytes of [data]. *)
Definition valid_frame (m : can_message_t) : Prop :=
  0 <= can_message.id m <= 0x7FF
  /\ 0 <= can_message.length m <= 8
  /\ List.length (can_message.data m) = 8%nat.

(** ** Properties *)

(** *** Traces *)

Lemma written_ids_app (t u : list call) :
  written_ids (t ++ u) = written_ids t ++ written_ids u.
Proof. unfold written_ids. apply flat_map_app. Qed.

Lemma open_rates_app (t u : list call) :
  open_rates (t ++ u) = open_rates t ++ open_rates u.
Proof. unfold open_rates. apply flat_map_app. Qed.

Lemma driver_writes_app (t u : list call) :
  driver_writes (t ++ u) = (driver_writes t + driver_writes u)%nat.
Proof. unfold driver_writes. rewrite written_ids_app. apply List.length_app. Qed.

(** *** NULL core pointers *)

(** C10: with a NULL core pointer [can_init], [can_deinit], [can_quit]
    and [can_set_baud_rate] return at once and leave the world (core
    object and trace of outside calls) as it was, and
    [is_can_initialised] answers [SDL_FALSE]. *)
Theorem null_core_no_action (w : world) (command : Z) :
  can_init NULL w = (tt, w)
  /\ can_deinit NULL w = (tt, w)
  /\ can_quit NULL w = (tt, w)
  /\ can_set_baud_rate command NULL w = (tt, w)
  /\ is_can_initialised NULL w = (false, w).
Proof. repeat split. Qed.

(** The monitor thread itself returns 1 on a NULL pointer. *)
Lemma can_monitor_null (ticks : nat) (w : world) :
  can_monitor ticks NULL w = (Returned 1, w).
Proof.
  unfold can_monitor, bind; cbn.
  induction ticks as [|n IH]; cbn; [reflexivity|].
  unfold bind; cbn. exact IH.
Qed.

(** *** Changing the bit rate *)

(** C5: [can_set_baud_rate] on the core object stores the new rate; when
    the channel is open it also clears the status, marks the channel
    closed and calls [CAN_Uninitialize]; when it is closed nothing but
    the stored rate changes and no outside call is made. *)
Theorem can_set_baud_rate_effect (command : Z) (w : world) :
  can_set_baud_rate command CORE w =
    (tt,
     let c := the_core w in
     if core.is_can_initialised c
     then {| the_core := core.mk (core.is_running c) false 0 command
                                 (core.can_monitor_th c);
             trace := trace w ++ [CAN_Uninitialize PCAN_USBBUS1] |}
     else {| the_core := core.mk (core.is_running c) false (core.can_status c)
                                 command (core.can_monitor_th c);
             trace := trace w |}).
Proof.
  destruct w as [[run ini st br th] t]; cbn.
  destruct ini; reflexivity.
Qed.

(** *** Writing and reading frames *)

(** The copy loop over an 8-byte array returns the source array. *)
Lemma copy_data_full (src dst : list Z) :
  List.length src = 8%nat -> List.length dst = 8%nat -> copy_data src dst = src.
Proof.
  intros Hs Hd.
  do 9 (destruct src as [|? src]; try discriminate Hs).
  do 9 (destruct dst as [|? dst]; try discriminate Hd).
  reflexivity.
Qed.

Lemma can_write_eq (message : can_message_t) (w : world) :
  can_write message w =
    (to_Uint32 (answer drv (trace w) (CAN_Write PCAN_USBBUS1 (encode message))),
     {| the_core := the_core w;
        trace := trace w ++ [CAN_Write PCAN_USBBUS1 (encode message)] |}).
Proof. reflexivity. Qed.

(** What [lua_can_write] does, with the message it builds spelled out. *)
Lemma lua_can_write_eq (arg1 arg2 arg3 arg4 : Z) (w : world) :
  let d03 := to_Uint32 arg3 in
  let d47 := to_Uint32 arg4 in
  let message :=
    can_message.mk
      (to_Uint16 (to_int arg1)) (to_Uint8 (to_int arg2))
      [Z.land (Z.shiftr d03 24) 0xff; Z.land (Z.shiftr d03 16) 0xff;
       Z.land (Z.shiftr d03 8) 0xff; Z.land d03 0xff;
       Z.land (Z.shiftr d47 24) 0xff; Z.land (Z.shiftr d47 16) 0xff;
       Z.land (Z.shiftr d47 8) 0xff; Z.land d47 0xff] in
  let frame :=
    TPCANMsg.mk (can_message.id message) PCAN_MESSAGE_STANDARD
                (can_message.length message) (can_message.data message) in
  lua_can_write arg1 arg2 arg3 arg4 w =
    ((if to_Uint32 (answer drv (trace w) (CAN_Write PCAN_USBBUS1 frame)) =? 0
      then 1 else 0),
     {| the_core := the_core w;
        trace := trace w ++ [CAN_Write PCAN_USBBUS1 frame] |}).
Proof.
  cbn zeta. unfold lua_can_write. cbn zeta. unfold bind.
  rewrite can_write_eq.
  unfold encode.
  cbn [can_message.id can_message.length can_message.data can_message.zero
       TPCANMsg.DATA TPCANMsg.zero].
  rewrite copy_data_full by reflexivity.
  cbn [replicate list_insert insert].
  rewrite Z.eqb_sym.
  destruct (_ =? 0); reflexivity.
Qed.

(** C2, as the code has it: whether the channel is open or not,
    [can_write] hands the encoded frame to [CAN_Write] exactly once and
    returns the driver's status; the core object is not looked at.
    [lua_can_write] does the same with the frame encoding the message it
    builds from its arguments, and returns 1 exactly when that status is
    0, else 0. *)
Theorem can_write_always_calls_driver
        (message : can_message_t) (arg1 arg2 arg3 arg4 : Z) (w : world) :
  let st := answer drv (trace w) (CAN_Write PCAN_USBBUS1 (encode message)) in
  let d03 := to_Uint32 arg3 in
  let d47 := to_Uint32 arg4 in
  let lua_message :=
    can_message.mk
      (to_Uint16 (to_int arg1)) (to_Uint8 (to_int arg2))
      [Z.land (Z.shiftr d03 24) 0xff; Z.land (Z.shiftr d03 16) 0xff;
       Z.land (Z.shiftr d03 8) 0xff; Z.land d03 0xff;
       Z.land (Z.shiftr d47 24) 0xff; Z.land (Z.shiftr d47 16) 0xff;
       Z.land (Z.shiftr d47 8) 0xff; Z.land d47 0xff] in
  let lua_st :=
    answer drv (trace w) (CAN_Write PCAN_USBBUS1 (encode lua_message)) in
  can_write message w =
    (to_Uint32 st,
     {| the_core := the_core w;
        trace := trace w ++ [CAN_Write PCAN_USBBUS1 (encode message)] |})
  /\ driver_writes (trace (snd (can_write message w)))
     = S (driver_writes (trace w))
  /\ lua_can_write arg1 arg2 arg3 arg4 w =
       ((if to_Uint32 lua_st =? 0 then 1 else 0),
        {| the_core := the_core w;
           trace := trace w ++ [CAN_Write PCAN_USBBUS1 (encode lua_message)] |})
  /\ driver_writes (trace (snd (lua_can_write arg1 arg2 arg3 arg4 w)))
     = S (driver_writes (trace w))
  /\ the_core (snd (lua_can_write arg1 arg2 arg3 arg4 w)) = the_core w.
Proof.
  cbn zeta. split; [reflexivity|]. split.
  { rewrite can_write_eq; cbn [snd trace].
    rewrite driver_writes_app; cbn. lia. }
  pose proof (lua_can_write_eq arg1 arg2 arg3 arg4 w) as E. cbn zeta in E.
  match type of E with
  | _ = (_, {| the_core := _; trace := _ ++ [CAN_Write _ ?frame] |}) =>
      match goal with
      | |- context [encode ?m] =>
          assert (Hf : encode m = frame)
            by (unfold encode;
                cbn [can_message.id can_message.length can_message.data
                     TPCANMsg.DATA TPCANMsg.zero];
                rewrite copy_data_full by reflexivity; reflexivity)
      end
  end.
  rewrite Hf, E. cbn [snd trace the_core].
  split; [reflexivity|]. split; [|reflexivity].
  rewrite driver_writes_app; cbn. lia.
Qed.

(** C7, as the code has it: [can_write] copies the identifier of the
    message into the wire frame as it is, whatever its value; no frame is
    refused and no identifier is changed. *)
Theorem can_write_keeps_identifier (message : can_message_t) (w : world) :
  TPCANMsg.ID (encode message) = can_message.id message
  /\ written_ids (trace (snd (can_write message w)))
     = written_ids (trace w) ++ [can_message.id message].
Proof.
  split; [reflexivity|].
  rewrite can_write_eq; cbn [snd trace].
  rewrite written_ids_app. reflexivity.
Qed.

Lemma decode_encode (frame buffer : can_message_t) :
  valid_frame frame ->
  List.length (can_message.data buffer) = 8%nat ->
  decode (encode frame) buffer = frame.
Proof.
  intros (Hid & _ & Hdata) Hbuf.
  destruct frame as [i l d].
  cbn [can_message.id can_message.data] in Hid, Hdata.
  unfold decode, encode.
  cbn [TPCANMsg.ID TPCANMsg.LEN TPCANMsg.DATA
       can_message.id can_message.length can_message.data].
  rewrite (copy_data_full d) by (assumption || reflexivity).
  rewrite (copy_data_full d) by assumption.
  unfold to_Uint16. rewrite Z.mod_small by lia. reflexivity.
Qed.

(** C6: for a valid frame, when the driver hands back on [CAN_Read] the
    wire frame it was given on [CAN_Write], the message [can_read]
    stores is the message [can_write] was given. *)
Theorem can_read_can_write_round_trip
        (frame buffer : can_message_t) (w : world) :
  valid_frame frame ->
  List.length (can_message.data buffer) = 8%nat ->
  read_buffer drv (trace w ++ [CAN_Write PCAN_USBBUS1 (encode frame)])
    = encode frame ->
  snd (fst (can_read buffer (snd (can_write frame w)))) = frame.
Proof.
  intros Hv Hb Hdrv.
  rewrite can_write_eq; cbn [snd].
  unfold can_read; cbn [trace invoke fst snd].
  rewrite Hdrv. apply decode_encode; assumption.
Qed.

(** *** SDO write *)

(** C9: for every 8-bit [node_id], [write_sdo] hands [CAN_Write] one
    frame, and its identifier lies between 0x600 and 0x67F; a node id
    above 0x7F is taken modulo 0x7F before 0x600 is added. *)
Theorem write_sdo_identifier
        (index sub_index data_type data node_id : Z) (stack : list Z)
        (w : world) :
  0 <= node_id < 256 ->
  exists cob_id : Z,
    written_ids (trace (snd (write_sdo index sub_index data_type data
                                       node_id stack w)))
      = written_ids (trace w) ++ [cob_id]
    /\ 0x600 <= cob_id <= 0x67F
    /\ cob_id = 0x600 + (if 0x7F <? node_id then node_id mod 0x7F else node_id).
Proof.
  intros Hn.
  exists (0x600 + (if 0x7F <? node_id then node_id mod 0x7F else node_id)).
  assert (Hm : 0 <= node_id mod 0x7F < 0x7F) by (apply Z.mod_pos_bound; lia).
  split; [|split].
  - assert (Hid : to_Uint32 (0x600 + (if 0x7F <? node_id
                                      then to_Uint8 (0x00 + Z.rem node_id 0x7F)
                                      else node_id))
                  = 0x600 + (if 0x7F <? node_id then node_id mod 0x7F else node_id)).
    { unfold to_Uint32, to_Uint8.
      destruct (0x7F <? node_id) eqn:E.
      - rewrite Z.rem_mod_nonneg by lia. rewrite Z.add_0_l.
        rewrite (Z.mod_small (node_id mod 0x7F)) by lia.
        rewrite Z.mod_small by lia. reflexivity.
      - apply Z.ltb_ge in E. rewrite Z.mod_small by lia. reflexivity. }
    unfold write_sdo. cbn zeta. unfold bind, invoke; cbn [trace].
    match goal with
    | |- context [if negb ?b then _ else _] => destruct (negb b)
    end;
      cbn [snd trace ret]; rewrite !written_ids_app;
      cbn [written_ids flat_map app TPCANMsg.ID];
      rewrite ?app_nil_r, Hid; reflexivity.
  - destruct (0x7F <? node_id) eqn:E; [lia|].
    apply Z.ltb_ge in E. lia.
  - reflexivity.
Qed.

(** *** The monitor loop, tick by tick *)

Lemma attempt_open_eq (w : world) :
  let c := the_core w in
  let rate := switch_baud_rate (core.baud_rate c) in
  let st := answer drv (trace w)
                   (CAN_Initialize PCAN_USBBUS1 rate PCAN_USB 0 0) in
  let ok := Z.land st PCAN_ERROR_OK =? st in
  attempt_open w =
    (tt,
     {| the_core := core.mk (core.is_running c)
                            (if ok then true else core.is_can_initialised c)
                            st (core.baud_rate c) (core.can_monitor_th c);
        trace := trace w ++
                 CAN_Initialize PCAN_USBBUS1 rate PCAN_USB 0 0
                 :: CAN_GetErrorText st 0x09
                 :: open_success_calls ok ++ [SDL_Delay 10] |}).
Proof.
  cbn zeta. unfold attempt_open, bind, load, store, invoke, ret.
  cbn [the_core trace core.can_status core.set_can_status
       core.set_is_can_initialised core.is_running core.is_can_initialised
       core.baud_rate core.can_monitor_th].
  destruct (Z.land _ PCAN_ERROR_OK =? _);
    cbn [the_core trace open_success_calls core.is_running
         core.is_can_initialised core.can_status core.baud_rate
         core.can_monitor_th];
    rewrite <- !app_assoc; reflexivity.
Qed.

Lemma poll_status_eq (w : world) :
  let c := the_core w in
  let st := answer drv (trace w) (CAN_GetStatus PCAN_USBBUS1) in
  poll_status w =
    (tt,
     if PCAN_ERROR_ILLHW =? st
     then {| the_core := core.mk (core.is_running c) false 0
                                 (core.baud_rate c) (core.can_monitor_th c);
             trace := trace w ++
                      CAN_GetStatus PCAN_USBBUS1
                      :: removal_calls ++ [SDL_Delay 10] |}
     else {| the_core := core.mk (core.is_running c)
                                 (core.is_can_initialised c) st
                                 (core.baud_rate c) (core.can_monitor_th c);
             trace := trace w ++
                      [CAN_GetStatus PCAN_USBBUS1; SDL_Delay 10] |}).
Proof.
  cbn zeta. unfold poll_status, bind, load, store, invoke, ret.
  cbn [the_core trace core.can_status core.set_can_status
       core.set_is_can_initialised core.is_running core.is_can_initialised
       core.baud_rate core.can_monitor_th].
  destruct (PCAN_ERROR_ILLHW =? _);
    cbn [the_core trace removal_calls core.is_running
         core.is_can_initialised core.can_status core.baud_rate
         core.can_monitor_th];
    rewrite <- !app_assoc; reflexivity.
Qed.

Lemma inner_while_eq (w : world) :
  inner_while w =
    if core.is_can_initialised (the_core w)
    then (AtOuter, snd (poll_status w))
    else (AtInner, snd (attempt_open w)).
Proof.
  cbv beta iota delta [inner_while bind is_can_initialised load ret].
  destruct (core.is_can_initialised (the_core w)); cbn [negb].
  - destruct (poll_status w); reflexivity.
  - destruct (attempt_open w); reflexivity.
Qed.

(** In the loop, a tick is the inner loop's test and what follows it. *)
Lemma monitor_tick_in_loop (pc : monitor_pc) (w : world) :
  in_loop pc w -> monitor_tick pc w = inner_while w.
Proof.
  intros [-> | [-> Hrun]]; [reflexivity|].
  unfold monitor_tick, bind, load. rewrite Hrun. reflexivity.
Qed.

(** At the outer test a cleared [is_running] ends the thread at once,
    with no further call. *)
Lemma monitor_tick_stop (w : world) :
  core.is_running (the_core w) = false ->
  monitor_tick AtOuter w = (Returned 0, w).
Proof.
  intros Hrun. unfold monitor_tick, bind, load. rewrite Hrun. reflexivity.
Qed.

(** *** The bit rate of an open attempt *)

Lemma switch_baud_rate_table (index : Z) :
  0 <= index <= 13 ->
  baud_rate_table !! Z.to_nat index = Some (switch_baud_rate index).
Proof.
  intros H.
  assert (Hcases : index = 0 \/ index = 1 \/ index = 2 \/ index = 3
                   \/ index = 4 \/ index = 5 \/ index = 6 \/ index = 7
                   \/ index = 8 \/ index = 9 \/ index = 10 \/ index = 11
                   \/ index = 12 \/ index = 13) by lia.
  repeat (destruct Hcases as [-> | Hcases]; [reflexivity|]).
  subst index; reflexivity.
Qed.

Lemma switch_baud_rate_default (index : Z) :
  13 < index -> switch_baud_rate index = PCAN_BAUD_250K.
Proof.
  intros H. destruct index as [|p|p]; try lia.
  do 4 (destruct p as [p|p|]; try reflexivity; try lia).
Qed.

Lemma open_rates_after_initialize (st : Z) (ok : bool) :
  open_rates (CAN_GetErrorText st 0x09 :: open_success_calls ok ++ [SDL_Delay 10])
  = [].
Proof. destruct ok; reflexivity. Qed.

Lemma open_rates_attempt (w : world) :
  open_rates (trace (snd (attempt_open w)))
  = open_rates (trace w) ++ [switch_baud_rate (core.baud_rate (the_core w))].
Proof.
  rewrite attempt_open_eq; cbn [snd trace].
  rewrite open_rates_app.
  change (open_rates (CAN_Initialize ?ch ?r ?hw ?a ?b :: ?l))
    with (r :: open_rates l).
  rewrite open_rates_after_initialize. reflexivity.
Qed.

Lemma open_rates_poll (w : world) :
  open_rates (trace (snd (poll_status w))) = open_rates (trace w).
Proof.
  rewrite poll_status_eq; cbn [snd].
  destruct (PCAN_ERROR_ILLHW =? _); cbn [trace];
    rewrite open_rates_app; cbn; apply app_nil_r.
Qed.

(** The help table, for its part, marks the last row for every index
    above 13. *)
Lemma help_marks_last_row (index : Z) :
  13 < index ->
  status index 13 = "Active"%string /\ status index 3 = " "%string.
Proof.
  intros H. unfold status, status_index.
  destruct (Z.ltb_spec 13 index); [split; reflexivity | lia].
Qed.

(** C1, what the code does: in the disconnected state the tick calls
    [CAN_Initialize] once; for a stored index from 0 to 13 the rate is
    the entry of the table at that index, but for every index above 13
    it is 250 kBit/s, the rate of index 3, where the help table marks
    the row of index 13. *)
Theorem monitor_open_rate (pc : monitor_pc) (w : world) (index : Z) :
  in_loop pc w ->
  core.is_can_initialised (the_core w) = false ->
  core.baud_rate (the_core w) = index ->
  exists rate : TPCANBaudrate,
    open_rates (trace (snd (monitor_tick pc w)))
      = open_rates (trace w) ++ [rate]
    /\ (0 <= index <= 13 -> baud_rate_table !! Z.to_nat index = Some rate)
    /\ (13 < index -> rate = PCAN_BAUD_250K
                      /\ baud_rate_table !! 3%nat = Some rate).
Proof.
  intros Hloop Hini Hidx.
  exists (switch_baud_rate index).
  rewrite (monitor_tick_in_loop _ _ Hloop), inner_while_eq, Hini.
  cbn [snd]. rewrite open_rates_attempt, Hidx.
  split; [reflexivity|]. split.
  - apply switch_baud_rate_table.
  - intros H. rewrite (switch_baud_rate_default _ H). split; reflexivity.
Qed.

(** *** Hardware removal *)

(** C4: a tick taken while connected whose status poll answers
    [PCAN_ERROR_ILLHW] ends at the outer test with the channel marked
    closed and the stored status 0, having called [CAN_Uninitialize] and
    logged the removal warning; the other fields are untouched, and the
    next tick of a loop that is still running begins with
    [CAN_Initialize] at the stored rate. *)
Theorem monitor_hardware_removed (pc : monitor_pc) (w : world) :
  in_loop pc w ->
  core.is_can_initialised (the_core w) = true ->
  answer drv (trace w) (CAN_GetStatus PCAN_USBBUS1) = PCAN_ERROR_ILLHW ->
  let pc' := fst (monitor_tick pc w) in
  let w' := snd (monitor_tick pc w) in
  pc' = AtOuter
  /\ the_core w' = core.mk (core.is_running (the_core w)) false 0
                           (core.baud_rate (the_core w))
                           (core.can_monitor_th (the_core w))
  /\ trace w' = trace w ++
                [CAN_GetStatus PCAN_USBBUS1;
                 CAN_Uninitialize PCAN_USBBUS1;
                 c_log LOG_WARNING "CAN de-initialised: USB-dongle removed?";
                 c_print_prompt;
                 SDL_Delay 10]
  /\ (core.is_running (the_core w') = true ->
      fst (monitor_tick pc' w') = AtInner
      /\ exists rest : list call,
          trace (snd (monitor_tick pc' w'))
          = trace w' ++
            CAN_Initialize PCAN_USBBUS1
                           (switch_baud_rate (core.baud_rate (the_core w)))
                           PCAN_USB 0 0 :: rest).
Proof.
  intros Hloop Hini Hst. cbn zeta.
  rewrite (monitor_tick_in_loop _ _ Hloop), inner_while_eq, Hini.
  cbn [fst snd]. rewrite poll_status_eq, Hst, Z.eqb_refl. cbn [snd the_core trace].
  do 3 (split; [reflexivity|]).
  intros Hrun.
  rewrite monitor_tick_in_loop by (right; split; [reflexivity | exact Hrun]).
  rewrite inner_while_eq. cbn [the_core core.is_can_initialised fst snd].
  split; [reflexivity|].
  rewrite attempt_open_eq. cbn [snd trace the_core core.baud_rate].
  eexists. reflexivity.
Qed.

(** *** The default bit rate *)

(** No tick of the monitor writes [baud_rate]. *)
Lemma monitor_tick_baud_rate (pc : monitor_pc) (w : world) :
  core.baud_rate (the_core (snd (monitor_tick pc w)))
  = core.baud_rate (the_core w).
Proof.
  assert (Hin : core.baud_rate (the_core (snd (inner_while w)))
                = core.baud_rate (the_core w)).
  { rewrite inner_while_eq.
    destruct (core.is_can_initialised (the_core w)); cbn [snd].
    - rewrite poll_status_eq; cbn [snd].
      destruct (PCAN_ERROR_ILLHW =? _); reflexivity.
    - rewrite attempt_open_eq; reflexivity. }
  destruct pc as [| |code]; cbn [monitor_tick]; try exact Hin; try reflexivity.
  unfold bind, load.
  destruct (core.is_running (the_core w)); [exact Hin | reflexivity].
Qed.

(** A tick opens at most once, at the rate the switch selects. *)
Lemma monitor_tick_open_rates (pc : monitor_pc) (w : world) :
  exists n : nat,
    open_rates (trace (snd (monitor_tick pc w)))
    = open_rates (trace w)
      ++ repeat (switch_baud_rate (core.baud_rate (the_core w))) n.
Proof.
  assert (Hin : exists n : nat,
             open_rates (trace (snd (inner_while w)))
             = open_rates (trace w)
               ++ repeat (switch_baud_rate (core.baud_rate (the_core w))) n).
  { rewrite inner_while_eq.
    destruct (core.is_can_initialised (the_core w)); cbn [snd].
    - exists 0%nat. rewrite open_rates_poll. symmetry; apply app_nil_r.
    - exists 1%nat. apply open_rates_attempt. }
  destruct pc as [| |code]; cbn [monitor_tick]; try exact Hin.
  - unfold bind, load.
    destruct (core.is_running (the_core w)); [exact Hin|].
    exists 0%nat. symmetry; apply app_nil_r.
  - exists 0%nat. symmetry; apply app_nil_r.
Qed.

Lemma monitor_run_default_rate (ticks : nat) :
  forall (pc : monitor_pc) (w : world),
    core.baud_rate (the_core w) = 3 ->
    core.baud_rate (the_core (snd (monitor_run ticks pc w))) = 3
    /\ exists n : nat,
        open_rates (trace (snd (monitor_run ticks pc w)))
        = open_rates (trace w) ++ repeat PCAN_BAUD_250K n.
Proof.
  induction ticks as [|k IH]; intros pc w Hb.
  - split; [exact Hb|]. exists 0%nat. symmetry; apply app_nil_r.
  - cbn [monitor_run]. unfold bind.
    pose proof (monitor_tick_baud_rate pc w) as Hb1.
    destruct (monitor_tick_open_rates pc w) as [n1 Hn1].
    destruct (monitor_tick pc w) as [pc1 w1]; cbn [snd] in Hb1, Hn1.
    rewrite Hb in Hb1, Hn1.
    destruct (IH pc1 w1 Hb1) as [Hb2 [n2 Hn2]].
    split; [exact Hb2|].
    exists (n1 + n2)%nat.
    rewrite Hn2, Hn1, <- app_assoc, repeat_app. reflexivity.
Qed.

(** C8: the monitor thread, before its loop and before any outside
    call, stores 3 in [baud_rate]; as long as nothing else writes the
    field it stays 3 over any number of ticks, and every open attempt of
    the run is made at 250 kBit/s, the entry of the table at index 3. *)
Theorem can_monitor_default_baud_rate (ticks : nat) (w : world) :
  can_monitor_entry CORE w
    = (AtOuter, {| the_core := core.set_baud_rate 3 (the_core w);
                   trace := trace w |})
  /\ core.baud_rate (the_core (snd (can_monitor ticks CORE w))) = 3
  /\ baud_rate_table !! 3%nat = Some PCAN_BAUD_250K
  /\ exists n : nat,
      open_rates (trace (snd (can_monitor ticks CORE w)))
      = open_rates (trace w) ++ repeat PCAN_BAUD_250K n.
Proof.
  split; [reflexivity|].
  unfold can_monitor, bind. cbn [can_monitor_entry store ret].
  set (w1 := {| the_core := core.set_baud_rate 3 (the_core w); trace := trace w |}).
  destruct (monitor_run_default_rate ticks AtOuter w1 eq_refl) as [Hb Hn].
  split; [exact Hb|]. split; [reflexivity|]. exact Hn.
Qed.

(** *** Shutdown *)

(** A failed open attempt leaves the monitor at the inner test. *)
Lemma monitor_tick_retry (w : world) :
  core.is_can_initialised (the_core w) = false ->
  (forall (t : list call) (rate : TPCANBaudrate),
      let st := answer drv t (CAN_Initialize PCAN_USBBUS1 rate PCAN_USB 0 0) in
      Z.land st PCAN_ERROR_OK <> st) ->
  fst (monitor_tick AtInner w) = AtInner
  /\ core.is_can_initialised (the_core (snd (monitor_tick AtInner w))) = false
  /\ core.is_running (the_core (snd (monitor_tick AtInner w)))
     = core.is_running (the_core w)
  /\ open_rates (trace (snd (monitor_tick AtInner w)))
     = open_rates (trace w) ++ [switch_baud_rate (core.baud_rate (the_core w))].
Proof.
  intros Hini Hfail. cbn [monitor_tick].
  rewrite inner_while_eq, Hini. cbn [fst snd].
  split; [reflexivity|].
  split; [|split; [|apply open_rates_attempt]].
  - rewrite attempt_open_eq; cbn [snd the_core core.is_can_initialised].
    destruct (Z.eqb_spec
                (Z.land (answer drv (trace w)
                                (CAN_Initialize PCAN_USBBUS1
                                   (switch_baud_rate (core.baud_rate (the_core w)))
                                   PCAN_USB 0 0)) PCAN_ERROR_OK)
                (answer drv (trace w)
                        (CAN_Initialize PCAN_USBBUS1
                           (switch_baud_rate (core.baud_rate (the_core w)))
                           PCAN_USB 0 0))) as [E|E].
    + exfalso. exact (Hfail _ _ E).
    + exact Hini.
  - rewrite attempt_open_eq; reflexivity.
Qed.

(** C3, what the code does: with [is_running] cleared while the monitor
    is in its retry loop and the adapter absent, the thread is still in
    the retry loop after any number of ticks, having made one more open
    attempt per tick: the inner loop never reads [is_running]. *)
Theorem retry_loop_ignores_stop (ticks : nat) (w : world) :
  core.is_running (the_core w) = false ->
  core.is_can_initialised (the_core w) = false ->
  (forall (t : list call) (rate : TPCANBaudrate),
      let st := answer drv t (CAN_Initialize PCAN_USBBUS1 rate PCAN_USB 0 0) in
      Z.land st PCAN_ERROR_OK <> st) ->
  fst (monitor_run ticks AtInner w) = AtInner
  /\ core.is_running (the_core (snd (monitor_run ticks AtInner w))) = false
  /\ List.length (open_rates (trace (snd (monitor_run ticks AtInner w))))
     = (List.length (open_rates (trace w)) + ticks)%nat.
Proof.
  intros Hrun Hini Hfail. revert w Hrun Hini.
  induction ticks as [|k IH]; intros w Hrun Hini.
  - cbn. split; [reflexivity|]. split; [exact Hrun|]. lia.
  - cbn [monitor_run]. unfold bind.
    destruct (monitor_tick_retry w Hini Hfail) as (Hpc & Hi1 & Hr1 & Ho1).
    destruct (monitor_tick AtInner w) as [pc1 w1]; cbn [fst snd] in *.
    subst pc1. rewrite Hrun in Hr1.
    destruct (IH w1 Hr1 Hi1) as (H1 & H2 & H3).
    split; [exact H1|]. split; [exact H2|].
    rewrite H3, Ho1, List.length_app. cbn. lia.
Qed.

(** X19: the connected branch does observe the flag: from the outer test the
    thread returns 0 without another call, and a tick that polls the
    status ends at the outer test. *)
Lemma connected_loop_observes_stop (pc : monitor_pc) (w : world) :
  in_loop pc w ->
  core.is_running (the_core w) = false ->
  core.is_can_initialised (the_core w) = true ->
  fst (monitor_tick pc w) = AtOuter
  /\ fst (monitor_run 2 pc w) = Returned 0.
Proof.
  intros Hloop Hrun Hini.
  assert (H1 : fst (monitor_tick pc w) = AtOuter).
  { rewrite (monitor_tick_in_loop _ _ Hloop), inner_while_eq, Hini.
    reflexivity. }
  split; [exact H1|].
  cbn [monitor_run]. unfold bind.
  assert (H2 : core.is_running (the_core (snd (monitor_tick pc w))) = false).
  { rewrite (monitor_tick_in_loop _ _ Hloop), inner_while_eq, Hini.
    cbn [snd]. rewrite poll_status_eq; cbn [snd].
    destruct (PCAN_ERROR_ILLHW =? _); cbn [the_core core.is_running];
      exact Hrun. }
  destruct (monitor_tick pc w) as [pc1 w1]; cbn [fst snd] in *.
  subst pc1. rewrite (monitor_tick_stop w1 H2). reflexivity.
Qed.

(** ** Further properties of can.c and sdo_client.c *)

(** *** Integer conversions *)

Lemma to_Uint16_to_int (x : Z) : to_Uint16 (to_int x) = x mod 2 ^ 16.
Proof.
  unfold to_Uint16, to_int.
  change (2 ^ 16) with 65536. change (2 ^ 31) with 2147483648.
  change (2 ^ 32) with 4294967296.
  Z.div_mod_to_equations. lia.
Qed.

Lemma to_Uint8_to_int (x : Z) : to_Uint8 (to_int x) = x mod 2 ^ 8.
Proof.
  unfold to_Uint8, to_int.
  change (2 ^ 8) with 256. change (2 ^ 31) with 2147483648.
  change (2 ^ 32) with 4294967296.
  Z.div_mod_to_equations. lia.
Qed.

Lemma byte_of_shift (u : Z) (n : Z) :
  0 <= n -> Z.land (Z.shiftr u n) 0xff = (u / 2 ^ n) mod 256.
Proof.
  intros Hn. change 0xff with (Z.ones 8).
  rewrite Z.land_ones by lia. rewrite Z.shiftr_div_pow2 by lia. reflexivity.
Qed.

(** The four bytes [lua_can_write] cuts out of a 32-bit word spell the
    word again. *)
Lemma bytes_of_word (u : Z) :
  0 <= u < 2 ^ 32 ->
  big_endian [Z.land (Z.shiftr u 24) 0xff; Z.land (Z.shiftr u 16) 0xff;
              Z.land (Z.shiftr u 8) 0xff; Z.land u 0xff] = u.
Proof.
  intros Hu. rewrite <- (Z.shiftr_0_r u) at 4.
  rewrite !byte_of_shift by lia.
  unfold big_endian; cbn [fold_left].
  change (2 ^ 32) with 4294967296 in Hu.
  change (2 ^ 24) with 16777216. change (2 ^ 16) with 65536.
  change (2 ^ 8) with 256. change (2 ^ 0) with 1.
  rewrite Z.div_1_r.
  pose proof (Z.div_mod u 256 ltac:(lia)) as H1.
  pose proof (Z.div_mod (u / 256) 256 ltac:(lia)) as H2.
  rewrite Z.div_div in H2 by lia. change (256 * 256) with 65536 in H2.
  pose proof (Z.div_mod (u / 65536) 256 ltac:(lia)) as H3.
  rewrite Z.div_div in H3 by lia. change (65536 * 256) with 16777216 in H3.
  assert (H4 : (u / 16777216) mod 256 = u / 16777216).
  { apply Z.mod_small. split.
    - apply Z.div_pos; lia.
    - apply Z.div_lt_upper_bound; lia. }
  lia.
Qed.

Lemma byte_range (x : Z) : 0 <= Z.land x 0xff <= 255.
Proof.
  assert (E : Z.land x 0xff = x mod 256).
  { change 0xff with (Z.ones 8). rewrite Z.land_ones by lia. reflexivity. }
  rewrite E.
  pose proof (Z.mod_pos_bound x 256 eq_refl). lia.
Qed.

Lemma written_frames_app (t u : list call) :
  written_frames (t ++ u) = written_frames t ++ written_frames u.
Proof. unfold written_frames. apply flat_map_app. Qed.

(** *** The Lua binding *)

(** X1: the eight data bytes [lua_can_write] sends are the 32-bit values
    of its third and fourth argument, each most significant byte
    first. *)
Theorem lua_can_write_payload (arg1 arg2 arg3 arg4 : Z) (w : world) :
  exists frame : TPCANMsg,
    written_frames (trace (snd (lua_can_write arg1 arg2 arg3 arg4 w)))
      = written_frames (trace w) ++ [frame]
    /\ List.length (TPCANMsg.DATA frame) = 8%nat
    /\ Forall (fun b => 0 <= b <= 255) (TPCANMsg.DATA frame)
    /\ big_endian (take 4 (TPCANMsg.DATA frame)) = arg3 mod 2 ^ 32
    /\ big_endian (drop 4 (TPCANMsg.DATA frame)) = arg4 mod 2 ^ 32.
Proof.
  pose proof (lua_can_write_eq arg1 arg2 arg3 arg4 w) as E. cbn zeta in E.
  rewrite E. eexists. cbn [snd trace].
  rewrite written_frames_app.
  split; [reflexivity|]. cbn [TPCANMsg.DATA].
  split; [reflexivity|]. split.
  - repeat (apply List.Forall_cons; [apply byte_range|]). apply List.Forall_nil.
  - cbn [take drop]. split; apply bytes_of_word; unfold to_Uint32;
      apply Z.mod_pos_bound; reflexivity.
Qed.

(** X2: [lua_can_write] sends its first argument modulo 2^16 as the
    identifier and its second modulo 2^8 as the length, neither checked
    against 0x7FF or 8, and returns 1 exactly when the driver's status is
    0. *)
Theorem lua_can_write_header (arg1 arg2 arg3 arg4 : Z) (w : world) :
  exists frame : TPCANMsg,
    written_frames (trace (snd (lua_can_write arg1 arg2 arg3 arg4 w)))
      = written_frames (trace w) ++ [frame]
    /\ TPCANMsg.ID frame = arg1 mod 2 ^ 16
    /\ TPCANMsg.LEN frame = arg2 mod 2 ^ 8
    /\ TPCANMsg.MSGTYPE frame = PCAN_MESSAGE_STANDARD
    /\ fst (lua_can_write arg1 arg2 arg3 arg4 w)
       = (if answer drv (trace w) (CAN_Write PCAN_USBBUS1 frame) mod 2 ^ 32 =? 0
          then 1 else 0).
Proof.
  pose proof (lua_can_write_eq arg1 arg2 arg3 arg4 w) as E. cbn zeta in E.
  rewrite E. eexists. cbn [fst snd trace].
  rewrite written_frames_app.
  split; [reflexivity|].
  cbn [TPCANMsg.ID TPCANMsg.LEN TPCANMsg.MSGTYPE
       can_message.id can_message.length].
  split; [apply to_Uint16_to_int|].
  split; [apply to_Uint8_to_int|].
  split; reflexivity.
Qed.

(** *** Opening and closing from the main thread *)


Lemma uninitialize_calls_app (t u : list call) :
  uninitialize_calls (t ++ u) = uninitialize_calls t ++ uninitialize_calls u.
Proof. unfold uninitialize_calls. apply flat_map_app. Qed.


(** X4: [can_quit] leaves the channel closed, calls [CAN_Uninitialize]
    exactly when it was open, and then detaches the thread stored in
    [can_monitor_th]; it leaves [is_running] as it was, so it does not
    ask the monitor to stop. *)
Theorem can_quit_effect (w : world) :
  let c := the_core w in
  let w' := snd (can_quit CORE w) in
  core.is_can_initialised (the_core w') = false
  /\ core.is_running (the_core w') = core.is_running c
  /\ core.baud_rate (the_core w') = core.baud_rate c
  /\ core.can_status (the_core w')
     = (if core.is_can_initialised c then 0 else core.can_status c)
  /\ trace w'
     = trace w
       ++ (if core.is_can_initialised c
           then [CAN_Uninitialize PCAN_USBBUS1] else [])
       ++ [SDL_DetachThread (core.can_monitor_th c)].
Proof.
  destruct w as [[run ini st br th] t]; cbn zeta.
  destruct ini; cbn; rewrite <- ?app_assoc; repeat split; reflexivity.
Qed.

(** X6: of two baud-rate changes made one right after the other the
    last one wins, and the second makes no driver call: the second rate
    is the one stored, the channel is closed, [CAN_Uninitialize] was
    called once if the channel was open and not at all otherwise, and
    the result is the world a single call with the second rate gives. *)
Theorem can_set_baud_rate_twice (first second : Z) (w : world) :
  let w2 :=
    snd (can_set_baud_rate second CORE (snd (can_set_baud_rate first CORE w))) in
  core.baud_rate (the_core w2) = second
  /\ core.is_can_initialised (the_core w2) = false
  /\ trace w2
     = trace w ++ (if core.is_can_initialised (the_core w)
                   then [CAN_Uninitialize PCAN_USBBUS1] else [])
  /\ can_set_baud_rate second CORE (snd (can_set_baud_rate first CORE w))
     = can_set_baud_rate second CORE w.
Proof.
  destruct w as [[run ini st br th] t].
  destruct ini; cbn; rewrite ?app_nil_r; repeat split; reflexivity.
Qed.

(** *** Reading frames *)

(** X7: [can_read] stores what the driver left in the buffer whatever
    status [CAN_Read] returned, so also on an empty queue; of the
    identifier only the low 16 bits are kept.  It calls [CAN_Read] once
    and does not touch the core object. *)
Theorem can_read_overwrites (message : can_message_t) (w : world) :
  List.length (can_message.data message) = 8%nat ->
  List.length (TPCANMsg.DATA (read_buffer drv (trace w))) = 8%nat ->
  let wire := read_buffer drv (trace w) in
  can_read message w =
    ((answer drv (trace w) (CAN_Read PCAN_USBBUS1),
      can_message.mk (TPCANMsg.ID wire mod 2 ^ 16) (TPCANMsg.LEN wire)
                     (TPCANMsg.DATA wire)),
     {| the_core := the_core w; trace := trace w ++ [CAN_Read PCAN_USBBUS1] |}).
Proof.
  intros Hm Hw. cbn zeta. unfold can_read, invoke, decode.
  rewrite copy_data_full by assumption. reflexivity.
Qed.

(** X8: a wire frame of standard type whose identifier fits 16 bits is
    what [can_write] would send for the message [can_read] makes of
    it. *)
Theorem encode_decode (wire : TPCANMsg) (buffer : can_message_t) :
  0 <= TPCANMsg.ID wire < 2 ^ 16 ->
  TPCANMsg.MSGTYPE wire = PCAN_MESSAGE_STANDARD ->
  List.length (TPCANMsg.DATA wire) = 8%nat ->
  List.length (can_message.data buffer) = 8%nat ->
  encode (decode wire buffer) = wire.
Proof.
  intros Hid Hty Hd Hb. destruct wire as [i ty l d].
  cbn [TPCANMsg.ID TPCANMsg.MSGTYPE TPCANMsg.DATA] in Hid, Hty, Hd.
  unfold encode, decode.
  cbn [TPCANMsg.ID TPCANMsg.LEN TPCANMsg.DATA
       can_message.id can_message.length can_message.data].
  rewrite (copy_data_full d) by assumption.
  rewrite (copy_data_full d) by (assumption || reflexivity).
  unfold to_Uint16. rewrite Z.mod_small by lia. rewrite Hty. reflexivity.
Qed.

(** *** SDO write, continued *)

Lemma sdl_warnings_app (t u : list call) :
  sdl_warnings (t ++ u) = sdl_warnings t ++ sdl_warnings u.
Proof. unfold sdl_warnings. apply flat_map_app. Qed.

(** X9: the frame [write_sdo] sends has the low 8 bits of [data_type] as
    its length and, as its data, what the stack held: [index],
    [sub_index] and [data] are not put into it.  [write_sdo] returns the
    driver's status, logs one warning exactly when that status is not
    [PCAN_ERROR_OK], and leaves the core object alone. *)
Theorem write_sdo_frame_and_status
        (index sub_index data_type data node_id : Z) (stack : list Z)
        (w : world) :
  exists frame : TPCANMsg,
    let r := write_sdo index sub_index data_type data node_id stack w in
    let st := to_Uint32 (answer drv (trace w) (CAN_Write PCAN_USBBUS1 frame)) in
    written_frames (trace (snd r)) = written_frames (trace w) ++ [frame]
    /\ TPCANMsg.LEN frame = data_type mod 2 ^ 8
    /\ TPCANMsg.DATA frame = stack
    /\ TPCANMsg.MSGTYPE frame = PCAN_MESSAGE_STANDARD
    /\ fst r = st
    /\ sdl_warnings (trace (snd r))
       = sdl_warnings (trace w) ++ (if PCAN_ERROR_OK =? st then [] else [st])
    /\ the_core (snd r) = the_core w.
Proof.
  exists (TPCANMsg.mk
            (to_Uint32 (0x600 + (if 0x7f <? node_id
                                 then to_Uint8 (0x00 + Z.rem node_id 0x7f)
                                 else node_id)))
            PCAN_MESSAGE_STANDARD (to_Uint8 data_type) stack).
  cbn zeta.
  unfold write_sdo. cbn zeta. unfold bind, invoke; cbn [trace the_core].
  destruct (PCAN_ERROR_OK =? _);
    cbn [negb fst snd trace the_core ret];
    rewrite ?written_frames_app, ?sdl_warnings_app;
    cbn [written_frames sdl_warnings flat_map app
         TPCANMsg.LEN TPCANMsg.DATA TPCANMsg.MSGTYPE];
    rewrite ?app_nil_r;
    repeat split; reflexivity.
Qed.

(** *** The help table *)

Lemma active_rows_app (t u : list call) :
  active_rows (t ++ u) = active_rows t ++ active_rows u.
Proof. unfold active_rows. apply flat_map_app. Qed.

Lemma can_print_baud_rate_help_trace (w : world) :
  let status := status (core.baud_rate (the_core w)) in
  can_print_baud_rate_help CORE w =
    (tt,
     {| the_core := the_core w;
        trace := trace w ++
          [table_print_header;
           table_print_row "CMD" "Description" "Status";
           table_print_divider;
           table_print_row "  0" "1 MBit/s" (status 0);
           table_print_row "  1" "800 kBit/s" (status 1);
           table_print_row "  2" "500 kBit/s" (status 2);
           table_print_row "  3" "250 kBit/s" (status 3);
           table_print_row "  4" "125 kBit/s" (status 4);
           table_print_row "  5" "100 kBit/s" (status 5);
           table_print_row "  6" "95,238 kBit/s" (status 6);
           table_print_row "  7" "83,333 kBit/s" (status 7);
           table_print_row "  8" "50 kBit/s" (status 8);
           table_print_row "  9" "47,619 kBit/s" (status 9);
           table_print_row " 10" "33,333 kBit/s" (status 10);
           table_print_row " 11" "20 kBit/s" (status 11);
           table_print_row " 12" "10 kBit/s" (status 12);
           table_print_row " 13" "5 kBit/s" (status 13);
           table_print_footer] |}).
Proof.
  cbn zeta. unfold can_print_baud_rate_help, bind, load, invoke, ret.
  cbn [the_core trace]. rewrite <- !app_assoc. reflexivity.
Qed.

(** X10: for every stored index the help table marks exactly one of its
    fourteen rate rows as active: the row of the index itself up to 13,
    the last row for every index above.  Printing it changes nothing in
    the core object. *)
Theorem help_table_marks_one_row (w : world) :
  0 <= core.baud_rate (the_core w) ->
  exists label : string,
    active_rows (trace (snd (can_print_baud_rate_help CORE w)))
      = active_rows (trace w) ++ [label]
    /\ help_commands !! Z.to_nat (Z.min (core.baud_rate (the_core w)) 13)
       = Some label
    /\ the_core (snd (can_print_baud_rate_help CORE w)) = the_core w.
Proof.
  intros Hb.
  pose proof (can_print_baud_rate_help_trace w) as E. cbn zeta in E.
  rewrite E. cbn [snd trace the_core]. rewrite active_rows_app.
  unfold status.
  assert (Hk : status_index (core.baud_rate (the_core w))
               = Z.min (core.baud_rate (the_core w)) 13).
  { unfold status_index.
    destruct (Z.ltb_spec 13 (core.baud_rate (the_core w))); lia. }
  rewrite Hk.
  set (k := Z.min (core.baud_rate (the_core w)) 13).
  assert (Hcases : k = 0 \/ k = 1 \/ k = 2 \/ k = 3 \/ k = 4 \/ k = 5
                   \/ k = 6 \/ k = 7 \/ k = 8 \/ k = 9 \/ k = 10
                   \/ k = 11 \/ k = 12 \/ k = 13) by lia.
  clearbody k.
  repeat (destruct Hcases as [-> | Hcases];
          [eexists; repeat split; reflexivity|]).
  subst k. eexists; repeat split; reflexivity.
Qed.

(** *** The switch of the monitor *)

(** X11: on the indices 0 to 13 the switch of the monitor selects
    fourteen different bit rates. *)
Theorem switch_baud_rate_injective (i j : Z) :
  0 <= i <= 13 -> 0 <= j <= 13 ->
  switch_baud_rate i = switch_baud_rate j -> i = j.
Proof.
  intros Hi Hj E.
  pose proof (switch_baud_rate_table i Hi) as Ti.
  pose proof (switch_baud_rate_table j Hj) as Tj.
  rewrite <- E in Tj.
  assert (Hnd : NoDup baud_rate_table).
  { unfold baud_rate_table.
    repeat (apply NoDup_cons; split;
            [rewrite ?elem_of_cons, elem_of_nil; intuition discriminate|]).
    apply NoDup_nil_2. }
  pose proof (NoDup_lookup _ _ _ _ Hnd Ti Tj). lia.
Qed.

(** *** The monitor while connected *)

Lemma status_polls_app (t u : list call) :
  status_polls (t ++ u) = status_polls t ++ status_polls u.
Proof. unfold status_polls. apply flat_map_app. Qed.

Lemma delays_app (t u : list call) :
  delays (t ++ u) = delays t ++ delays u.
Proof. unfold delays. apply flat_map_app. Qed.

(** A tick taken while connected whose poll does not answer
    [PCAN_ERROR_ILLHW] stores the status and nothing else. *)
Lemma monitor_tick_connected (pc : monitor_pc) (w : world) :
  in_loop pc w ->
  core.is_can_initialised (the_core w) = true ->
  answer drv (trace w) (CAN_GetStatus PCAN_USBBUS1) <> PCAN_ERROR_ILLHW ->
  monitor_tick pc w =
    (AtOuter,
     {| the_core := core.mk (core.is_running (the_core w)) true
                            (answer drv (trace w) (CAN_GetStatus PCAN_USBBUS1))
                            (core.baud_rate (the_core w))
                            (core.can_monitor_th (the_core w));
        trace := trace w ++ [CAN_GetStatus PCAN_USBBUS1; SDL_Delay 10] |}).
Proof.
  intros Hloop Hini Hst.
  rewrite (monitor_tick_in_loop _ _ Hloop), inner_while_eq, Hini.
  rewrite poll_status_eq. cbn [snd].
  destruct (Z.eqb_spec PCAN_ERROR_ILLHW
                       (answer drv (trace w) (CAN_GetStatus PCAN_USBBUS1)))
    as [E|E].
  - exfalso. apply Hst. symmetry. exact E.
  - rewrite Hini. reflexivity.
Qed.

(** X12: an open attempt whose status passes the test
    [(status & PCAN_ERROR_OK) == status] marks the channel open, stores
    the status, logs the success and sleeps; the tick after it polls the
    status and does not open again. *)
Theorem monitor_open_success (pc : monitor_pc) (w : world) :
  in_loop pc w ->
  core.is_can_initialised (the_core w) = false ->
  let rate := switch_baud_rate (core.baud_rate (the_core w)) in
  let st := answer drv (trace w)
                   (CAN_Initialize PCAN_USBBUS1 rate PCAN_USB 0 0) in
  Z.land st PCAN_ERROR_OK = st ->
  let w' := snd (monitor_tick pc w) in
  fst (monitor_tick pc w) = AtInner
  /\ the_core w' = core.mk (core.is_running (the_core w)) true st
                           (core.baud_rate (the_core w))
                           (core.can_monitor_th (the_core w))
  /\ trace w' = trace w ++
                [CAN_Initialize PCAN_USBBUS1 rate PCAN_USB 0 0;
                 CAN_GetErrorText st 0x09;
                 c_log LOG_SUCCESS "CAN successfully initialised";
                 c_print_prompt;
                 SDL_Delay 10]
  /\ fst (monitor_tick AtInner w') = AtOuter
  /\ open_rates (trace (snd (monitor_tick AtInner w'))) = open_rates (trace w')
  /\ status_polls (trace (snd (monitor_tick AtInner w')))
     = status_polls (trace w') ++ [PCAN_USBBUS1].
Proof.
  intros Hloop Hini. cbn zeta. intros Hok.
  rewrite (monitor_tick_in_loop _ _ Hloop), inner_while_eq, Hini.
  cbn [fst snd]. rewrite attempt_open_eq. cbn zeta. cbn [snd].
  apply Z.eqb_eq in Hok. rewrite Hok. cbn [open_success_calls app].
  do 3 (split; [reflexivity|]).
  cbn [monitor_tick]. rewrite inner_while_eq.
  cbn [the_core core.is_can_initialised fst snd].
  split; [reflexivity|]. split; [apply open_rates_poll|].
  rewrite poll_status_eq. cbn [snd].
  destruct (PCAN_ERROR_ILLHW =? _); cbn [trace];
    rewrite status_polls_app; reflexivity.
Qed.

(** X13: once the channel is open and as long as no status poll answers
    [PCAN_ERROR_ILLHW], the running monitor keeps it open over any number
    of ticks: it polls the status once per tick and calls neither
    [CAN_Initialize] nor [CAN_Uninitialize], whatever other status the
    driver reports. *)
Theorem monitor_stays_connected (ticks : nat) (pc : monitor_pc) (w : world) :
  in_loop pc w ->
  core.is_running (the_core w) = true ->
  core.is_can_initialised (the_core w) = true ->
  (forall t : list call,
      answer drv t (CAN_GetStatus PCAN_USBBUS1) <> PCAN_ERROR_ILLHW) ->
  let w' := snd (monitor_run ticks pc w) in
  core.is_can_initialised (the_core w') = true
  /\ open_rates (trace w') = open_rates (trace w)
  /\ uninitialize_calls (trace w') = uninitialize_calls (trace w)
  /\ List.length (status_polls (trace w'))
     = (List.length (status_polls (trace w)) + ticks)%nat.
Proof.
  intros Hloop Hrun Hini Hst. cbn zeta. revert pc w Hloop Hrun Hini.
  induction ticks as [|k IH]; intros pc w Hloop Hrun Hini.
  - cbn. repeat split; [exact Hini | lia].
  - cbn [monitor_run]. unfold bind.
    rewrite (monitor_tick_connected pc w Hloop Hini (Hst _)).
    match goal with
    | |- context [monitor_run k AtOuter ?w1] =>
        destruct (IH AtOuter w1) as (H1 & H2 & H3 & H4);
          [right; split; [reflexivity | exact Hrun] | exact Hrun
           | reflexivity |]
    end.
    cbn [trace] in H2, H3, H4.
    rewrite open_rates_app in H2. rewrite uninitialize_calls_app in H3.
    rewrite status_polls_app in H4.
    cbn in H2, H3, H4. rewrite app_nil_r in H2, H3.
    rewrite List.length_app in H4. cbn in H4.
    repeat split; [exact H1 | exact H2 | exact H3 | lia].
Qed.

(** *** What the monitor leaves alone *)

Lemma monitor_tick_fields (pc : monitor_pc) (w : world) :
  let c' := the_core (snd (monitor_tick pc w)) in
  core.is_running c' = core.is_running (the_core w)
  /\ core.baud_rate c' = core.baud_rate (the_core w)
  /\ core.can_monitor_th c' = core.can_monitor_th (the_core w).
Proof.
  cbn zeta.
  assert (Hin : let c' := the_core (snd (inner_while w)) in
                core.is_running c' = core.is_running (the_core w)
                /\ core.baud_rate c' = core.baud_rate (the_core w)
                /\ core.can_monitor_th c' = core.can_monitor_th (the_core w)).
  { cbn zeta. rewrite inner_while_eq.
    destruct (core.is_can_initialised (the_core w)); cbn [snd].
    - rewrite poll_status_eq; cbn [snd].
      destruct (PCAN_ERROR_ILLHW =? _); repeat split.
    - rewrite attempt_open_eq; repeat split. }
  destruct pc as [| |code]; cbn [monitor_tick]; try exact Hin.
  - unfold bind, load.
    destruct (core.is_running (the_core w)) eqn:Er; [exact Hin|].
    cbn [ret snd]. repeat split. exact Er.
  - repeat split.
Qed.

(** X14: the monitor thread never writes [is_running], [baud_rate] (after
    its initial store) or [can_monitor_th]: over any number of ticks,
    from any place in the loop, the three fields keep their values. *)
Theorem monitor_run_keeps_fields (ticks : nat) (pc : monitor_pc) (w : world) :
  let c' := the_core (snd (monitor_run ticks pc w)) in
  core.is_running c' = core.is_running (the_core w)
  /\ core.baud_rate c' = core.baud_rate (the_core w)
  /\ core.can_monitor_th c' = core.can_monitor_th (the_core w).
Proof.
  cbn zeta. revert pc w.
  induction ticks as [|k IH]; intros pc w.
  - repeat split.
  - cbn [monitor_run]. unfold bind.
    pose proof (monitor_tick_fields pc w) as Ht. cbn zeta in Ht.
    destruct (monitor_tick pc w) as [pc1 w1]. cbn [snd] in Ht.
    destruct Ht as (T1 & T2 & T3).
    destruct (IH pc1 w1) as (H1 & H2 & H3).
    rewrite H1, H2, H3. repeat split; assumption.
Qed.

(** *** A new bit rate and the next tick *)

(** X15: when [can_set_baud_rate] is called while the monitor stands
    between two ticks, at a loop test, then, whether the channel was
    open or not, the next tick of the monitor is an open attempt at the
    rate the switch selects for the new index.  A call that lands inside
    an open attempt is another matter, see X20. *)
Theorem new_rate_used_on_next_tick
        (command : Z) (pc : monitor_pc) (w : world) :
  in_loop pc w ->
  let w1 := snd (can_set_baud_rate command CORE w) in
  fst (monitor_tick pc w1) = AtInner
  /\ open_rates (trace (snd (monitor_tick pc w1)))
     = open_rates (trace w) ++ [switch_baud_rate command].
Proof.
  intros Hloop. cbn zeta.
  assert (H1 : in_loop pc (snd (can_set_baud_rate command CORE w))
               /\ core.is_can_initialised
                    (the_core (snd (can_set_baud_rate command CORE w))) = false
               /\ core.baud_rate
                    (the_core (snd (can_set_baud_rate command CORE w))) = command
               /\ open_rates (trace (snd (can_set_baud_rate command CORE w)))
                  = open_rates (trace w)).
  { destruct w as [[run ini st br th] t].
    destruct Hloop as [-> | [-> Hrun]]; cbn in *;
      destruct ini; cbn; rewrite ?open_rates_app, ?app_nil_r;
      repeat split; first [left; reflexivity | right; split; assumption || reflexivity]. }
  destruct H1 as (L & I & B & O).
  rewrite (monitor_tick_in_loop _ _ L), inner_while_eq, I. cbn [fst snd].
  split; [reflexivity|].
  rewrite open_rates_attempt, B, O. reflexivity.
Qed.

(** *** The pace of the loop *)

(** X16: every tick taken in the loop ends with one [SDL_Delay(10)] and
    contains no other delay, in each of its four branches. *)
Theorem monitor_tick_sleeps_once (pc : monitor_pc) (w : world) :
  in_loop pc w ->
  delays (trace (snd (monitor_tick pc w))) = delays (trace w) ++ [10]
  /\ last (trace (snd (monitor_tick pc w))) = Some (SDL_Delay 10).
Proof.
  intros Hloop.
  rewrite (monitor_tick_in_loop _ _ Hloop), inner_while_eq.
  destruct (core.is_can_initialised (the_core w)); cbn [snd].
  - rewrite poll_status_eq. cbn [snd].
    destruct (PCAN_ERROR_ILLHW =? _); cbn [trace removal_calls app];
      rewrite delays_app, last_app; split; reflexivity.
  - rewrite attempt_open_eq. cbn [snd trace].
    destruct (Z.land _ PCAN_ERROR_OK =? _); cbn [open_success_calls app];
      rewrite delays_app, last_app; split; reflexivity.
Qed.

(** *** A failed open attempt *)

(** X17: an open attempt whose status fails the test stores the status,
    fetches its error text and sleeps; it logs nothing, leaves the
    channel closed and stays in the retry loop. *)
Theorem monitor_open_failure (pc : monitor_pc) (w : world) :
  in_loop pc w ->
  core.is_can_initialised (the_core w) = false ->
  let rate := switch_baud_rate (core.baud_rate (the_core w)) in
  let st := answer drv (trace w)
                   (CAN_Initialize PCAN_USBBUS1 rate PCAN_USB 0 0) in
  Z.land st PCAN_ERROR_OK <> st ->
  monitor_tick pc w =
    (AtInner,
     {| the_core := core.mk (core.is_running (the_core w)) false st
                            (core.baud_rate (the_core w))
                            (core.can_monitor_th (the_core w));
        trace := trace w ++
                 [CAN_Initialize PCAN_USBBUS1 rate PCAN_USB 0 0;
                  CAN_GetErrorText st 0x09;
                  SDL_Delay 10] |}).
Proof.
  intros Hloop Hini. cbn zeta. intros Hfail.
  rewrite (monitor_tick_in_loop _ _ Hloop), inner_while_eq, Hini.
  rewrite attempt_open_eq. cbn zeta. cbn [snd].
  apply Z.eqb_neq in Hfail. rewrite Hfail, Hini. reflexivity.
Qed.

(** *** Connects and removals *)

Lemma logs_app (level : log_level) (t u : list call) :
  logs level (t ++ u) = (logs level t + logs level u)%nat.
Proof. unfold logs. rewrite flat_map_app. apply List.length_app. Qed.

Lemma monitor_tick_logs (pc : monitor_pc) (w : world) :
  let w' := snd (monitor_tick pc w) in
  (logs LOG_SUCCESS (trace w') + logs LOG_WARNING (trace w)
   + Nat.b2n (core.is_can_initialised (the_core w))
   = logs LOG_SUCCESS (trace w) + logs LOG_WARNING (trace w')
     + Nat.b2n (core.is_can_initialised (the_core w')))%nat.
Proof.
  cbn zeta.
  assert (Hin : (logs LOG_SUCCESS (trace (snd (inner_while w)))
                 + logs LOG_WARNING (trace w)
                 + Nat.b2n (core.is_can_initialised (the_core w))
                 = logs LOG_SUCCESS (trace w)
                   + logs LOG_WARNING (trace (snd (inner_while w)))
                   + Nat.b2n (core.is_can_initialised
                                (the_core (snd (inner_while w)))))%nat).
  { rewrite inner_while_eq.
    destruct (core.is_can_initialised (the_core w)) eqn:Hini; cbn [snd].
    - rewrite poll_status_eq. cbn [snd].
      destruct (PCAN_ERROR_ILLHW =? _);
        cbn [trace the_core core.is_can_initialised removal_calls app];
        rewrite ?Hini, !logs_app; cbn; lia.
    - rewrite attempt_open_eq. cbn [snd trace the_core core.is_can_initialised].
      destruct (Z.land _ PCAN_ERROR_OK =? _);
        cbn [open_success_calls app];
        rewrite ?Hini, !logs_app; cbn; lia. }
  destruct pc as [| |code]; cbn [monitor_tick]; try exact Hin.
  - unfold bind, load.
    destruct (core.is_running (the_core w)); [exact Hin|].
    cbn [ret snd]. lia.
  - cbn [ret snd]. lia.
Qed.

(** X18: over any run of the monitor the success logs and the removal
    warnings keep step with the state: the successes logged during the
    run exceed the removals logged during it by one when the channel
    went from closed to open, by none when its state is the same, and
    fall one short when it went from open to closed. *)
Theorem monitor_run_logs (ticks : nat) (pc : monitor_pc) (w : world) :
  let w' := snd (monitor_run ticks pc w) in
  (logs LOG_SUCCESS (trace w') + logs LOG_WARNING (trace w)
   + Nat.b2n (core.is_can_initialised (the_core w))
   = logs LOG_SUCCESS (trace w) + logs LOG_WARNING (trace w')
     + Nat.b2n (core.is_can_initialised (the_core w')))%nat.
Proof.
  cbn zeta. revert pc w.
  induction ticks as [|k IH]; intros pc w.
  - cbn. lia.
  - cbn [monitor_run]. unfold bind.
    pose proof (monitor_tick_logs pc w) as Ht. cbn zeta in Ht.
    destruct (monitor_tick pc w) as [pc1 w1]. cbn [snd] in Ht.
    pose proof (IH pc1 w1) as Hr. lia.
Qed.

(** *** The two threads together *)

Lemma detached_app (t u : list call) :
  detached (t ++ u) = detached t ++ detached u.
Proof. unfold detached. apply flat_map_app. Qed.

(** The two halves make the open attempt. *)
Lemma attempt_open_split (w : world) :
  attempt_open w = (attempt_open_call ;; attempt_open_rest) w.
Proof. reflexivity. Qed.

(** While no poll answers [PCAN_ERROR_ILLHW], a run of the monitor on an
    open channel, from any place, neither opens nor closes, and keeps
    the stored rate and thread handle. *)
Lemma monitor_run_connected (ticks : nat) :
  forall (pc : monitor_pc) (w : world),
    core.is_can_initialised (the_core w) = true ->
    (forall t : list call,
        answer drv t (CAN_GetStatus PCAN_USBBUS1) <> PCAN_ERROR_ILLHW) ->
    let w' := snd (monitor_run ticks pc w) in
    core.is_can_initialised (the_core w') = true
    /\ open_rates (trace w') = open_rates (trace w)
    /\ uninitialize_calls (trace w') = uninitialize_calls (trace w)
    /\ core.baud_rate (the_core w') = core.baud_rate (the_core w).
Proof.
  induction ticks as [|k IH]; intros pc w Hini Hst; cbn zeta.
  - repeat split. exact Hini.
  - cbn [monitor_run]. unfold bind.
    assert (Ht : let w1 := snd (monitor_tick pc w) in
                 core.is_can_initialised (the_core w1) = true
                 /\ open_rates (trace w1) = open_rates (trace w)
                 /\ uninitialize_calls (trace w1) = uninitialize_calls (trace w)
                 /\ core.baud_rate (the_core w1) = core.baud_rate (the_core w)).
    { cbn zeta.
      assert (Hin : forall pc0, in_loop pc0 w ->
                 core.is_can_initialised (the_core (snd (monitor_tick pc0 w))) = true
                 /\ open_rates (trace (snd (monitor_tick pc0 w)))
                    = open_rates (trace w)
                 /\ uninitialize_calls (trace (snd (monitor_tick pc0 w)))
                    = uninitialize_calls (trace w)
                 /\ core.baud_rate (the_core (snd (monitor_tick pc0 w)))
                    = core.baud_rate (the_core w)).
      { intros pc0 Hl.
        rewrite (monitor_tick_connected pc0 w Hl Hini (Hst _)).
        cbn [snd the_core trace core.is_can_initialised core.baud_rate].
        rewrite open_rates_app, uninitialize_calls_app. cbn.
        rewrite !app_nil_r. repeat split. }
      destruct pc as [| |code].
      - destruct (core.is_running (the_core w)) eqn:Er.
        + apply Hin. right. split; [reflexivity | exact Er].
        + rewrite (monitor_tick_stop w Er). cbn [snd].
          repeat split. exact Hini.
      - apply Hin. left. reflexivity.
      - cbn [monitor_tick ret snd]. repeat split. exact Hini. }
    cbn zeta in Ht. destruct (monitor_tick pc w) as [pc1 w1]. cbn [snd] in Ht.
    destruct Ht as (T1 & T2 & T3 & T4).
    destruct (IH pc1 w1 T1 Hst) as (H1 & H2 & H3 & H4).
    rewrite H2, H3, H4. repeat split; assumption.
Qed.

Lemma monitor_run_can_monitor_th (ticks : nat) :
  forall (pc : monitor_pc) (w : world),
    core.can_monitor_th (the_core (snd (monitor_run ticks pc w)))
    = core.can_monitor_th (the_core w).
Proof.
  induction ticks as [|k IH]; intros pc w; [reflexivity|].
  cbn [monitor_run]. unfold bind.
  pose proof (monitor_tick_fields pc w) as Ht. cbn zeta in Ht.
  destruct (monitor_tick pc w) as [pc1 w1]. cbn [snd] in Ht.
  rewrite IH. apply Ht.
Qed.

(** X5: the thread [can_quit] detaches is the one [can_init] created,
    however many ticks the monitor that [can_init] started has run in
    between: the monitor never changes [can_monitor_th].  After
    [can_quit] the channel is marked closed. *)
Theorem can_quit_detaches_created_thread (ticks : nat) (w : world) :
  let th := answer drv (trace w) (SDL_CreateThread "CAN monitor thread") in
  let w1 := snd (can_init CORE w) in
  let w2 := snd (can_monitor ticks CORE w1) in
  let w3 := snd (can_quit CORE w2) in
  core.can_monitor_th (the_core w2) = th
  /\ detached (trace w3) = detached (trace w2) ++ [th]
  /\ core.is_can_initialised (the_core w3) = false.
Proof.
  cbn zeta.
  assert (Hth : core.can_monitor_th
                  (the_core (snd (can_monitor ticks CORE (snd (can_init CORE w)))))
                = answer drv (trace w) (SDL_CreateThread "CAN monitor thread")).
  { change (can_monitor ticks CORE (snd (can_init CORE w)))
      with (monitor_run ticks AtOuter
              {| the_core := core.set_baud_rate 3 (the_core (snd (can_init CORE w)));
                 trace := trace (snd (can_init CORE w)) |}).
    rewrite monitor_run_can_monitor_th. reflexivity. }
  split; [exact Hth|].
  destruct (snd (can_monitor ticks CORE (snd (can_init CORE w))))
    as [[run ini st br th'] t].
  cbn [the_core core.can_monitor_th] in Hth. subst th'.
  destruct ini; cbn; rewrite !detached_app; cbn;
    rewrite ?app_nil_r; split; reflexivity.
Qed.

(** X20: a [can_set_baud_rate] that lands inside a successful open
    attempt, after [CAN_Initialize] has returned and before the monitor
    marks the channel open, is lost: it finds the channel closed and only
    stores the new index; the monitor then marks the channel open, and
    over any number of further ticks without hardware removal the channel
    stays open at the old rate, never reopened, while the stored index is
    the new one. *)
Theorem rate_change_during_open_is_lost
        (command : Z) (ticks : nat) (w : world) :
  core.is_can_initialised (the_core w) = false ->
  let old_rate := switch_baud_rate (core.baud_rate (the_core w)) in
  let st := answer drv (trace w)
                   (CAN_Initialize PCAN_USBBUS1 old_rate PCAN_USB 0 0) in
  Z.land st PCAN_ERROR_OK = st ->
  (forall t : list call,
      answer drv t (CAN_GetStatus PCAN_USBBUS1) <> PCAN_ERROR_ILLHW) ->
  let w1 := snd (attempt_open_call w) in
  let w2 := snd (can_set_baud_rate command CORE w1) in
  let w3 := snd (attempt_open_rest w2) in
  let w4 := snd (monitor_run ticks AtInner w3) in
  attempt_open w = (attempt_open_call ;; attempt_open_rest) w
  /\ trace w2 = trace w ++ [CAN_Initialize PCAN_USBBUS1 old_rate PCAN_USB 0 0]
  /\ core.baud_rate (the_core w4) = command
  /\ core.is_can_initialised (the_core w4) = true
  /\ open_rates (trace w4) = open_rates (trace w) ++ [old_rate]
  /\ uninitialize_calls (trace w4) = uninitialize_calls (trace w).
Proof.
  intros Hini. cbn zeta. intros Hok Hst.
  split; [reflexivity|].
  destruct w as [[run ini st0 br th] t].
  cbn [the_core core.is_can_initialised core.baud_rate trace] in *. subst ini.
  apply Z.eqb_eq in Hok.
  unfold attempt_open_call, attempt_open_rest, can_set_baud_rate, can_deinit,
    is_can_initialised, bind, load, store, invoke, ret.
  cbn [snd fst the_core trace negb
       core.set_can_status core.set_baud_rate core.set_is_can_initialised
       core.is_running core.is_can_initialised core.can_status
       core.baud_rate core.can_monitor_th].
  split; [reflexivity|].
  rewrite Hok.
  cbn [snd fst the_core trace
       core.set_can_status core.set_baud_rate core.set_is_can_initialised
       core.is_running core.is_can_initialised core.can_status
       core.baud_rate core.can_monitor_th].
  match goal with
  | |- context [monitor_run ticks AtInner ?w3] =>
      destruct (monitor_run_connected ticks AtInner w3 eq_refl Hst)
        as (H1 & H2 & H3 & H4)
  end.
  cbn [the_core trace core.baud_rate] in H2, H3, H4.
  rewrite H4, H2, H3.
  split; [reflexivity|]. split; [exact H1|].
  rewrite <- !app_assoc, open_rates_app, uninitialize_calls_app. cbn.
  rewrite app_nil_r. split; reflexivity.
Qed.

End Program.






(** ** The properties at concrete inputs *)

(** The status codes below are 0 for [PCAN_ERROR_OK] and 0x1400 for
    [PCAN_ERROR_ILLHW]; the frame type [PCAN_MESSAGE_STANDARD] is 0. *)

(** C1 as the specification words it fails: with index 14 stored, the
    open attempt is not made at the rate of index 13. *)
Lemma open_rate_above_13_not_clamped :
  ~ (forall (ok illhw : Z) (drv : driver) (w : world) (rate : TPCANBaudrate),
        core.is_can_initialised (the_core w) = false ->
        13 < core.baud_rate (the_core w) ->
        baud_rate_table !! 13%nat = Some rate ->
        open_rates (trace (snd (monitor_tick ok illhw drv AtInner w)))
        = open_rates (trace w) ++ [rate]).
Proof.
  intros H.
  specialize (H 0 0x1400 (loopback 0x1400) index14_world PCAN_BAUD_5K
                eq_refl eq_refl eq_refl).
  vm_compute in H. discriminate H.
Qed.

(** With index 14 stored the attempt is made at 250 kBit/s. *)
Lemma monitor_open_rate_witness :
  exists rate : TPCANBaudrate,
    open_rates (trace (snd (monitor_tick 0 0x1400 (loopback 0x1400)
                                         AtInner index14_world)))
      = open_rates (trace index14_world) ++ [rate]
    /\ (0 <= 14 <= 13 -> baud_rate_table !! Z.to_nat 14 = Some rate)
    /\ (13 < 14 -> rate = PCAN_BAUD_250K
                   /\ baud_rate_table !! 3%nat = Some rate).
Proof.
  apply (monitor_open_rate 0 0x1400 (loopback 0x1400) AtInner index14_world 14).
  - left; reflexivity.
  - reflexivity.
  - reflexivity.
Defined.

(** C2 as the specification words it fails: with the channel closed,
    [can_write] still calls the driver's write primitive. *)
Lemma can_write_disconnected_calls_driver :
  ~ (forall (std : Z) (drv : driver) (message : can_message_t) (w : world),
        core.is_can_initialised (the_core w) = false ->
        driver_writes (trace (snd (can_write std drv message w)))
        = driver_writes (trace w)).
Proof.
  intros H.
  specialize (H 0 (loopback 0) frame_0x123 fresh_world eq_refl).
  vm_compute in H. discriminate H.
Qed.

(** C7 as the specification words it fails: the identifier 0x800 is
    neither refused nor brought into range. *)
Lemma can_write_passes_wide_identifier :
  ~ (forall (std : Z) (drv : driver) (message : can_message_t) (w : world),
        0x7FF < can_message.id message ->
        written_ids (trace (snd (can_write std drv message w)))
        = written_ids (trace w)
        \/ exists cob_id : Z,
            written_ids (trace (snd (can_write std drv message w)))
            = written_ids (trace w) ++ [cob_id]
            /\ cob_id <> can_message.id message).
Proof.
  intros H.
  destruct (H 0 (loopback 0) frame_0x800 fresh_world eq_refl)
    as [Hrej | [cob_id [Hw Hne]]].
  - vm_compute in Hrej. discriminate Hrej.
  - vm_compute in Hw. injection Hw as <-. apply Hne. reflexivity.
Qed.

(** The channel open at index 3, the adapter pulled: the driver answers
    0x1400 to the status poll. *)
Lemma monitor_hardware_removed_witness :
  let pc' := fst (monitor_tick 0 0x1400 (loopback 0x1400) AtOuter connected_world) in
  let w' := snd (monitor_tick 0 0x1400 (loopback 0x1400) AtOuter connected_world) in
  pc' = AtOuter
  /\ the_core w' = core.mk true false 0 3 0
  /\ trace w' = [CAN_GetStatus PCAN_USBBUS1;
                 CAN_Uninitialize PCAN_USBBUS1;
                 c_log LOG_WARNING "CAN de-initialised: USB-dongle removed?";
                 c_print_prompt;
                 SDL_Delay 10]
  /\ (core.is_running (the_core w') = true ->
      fst (monitor_tick 0 0x1400 (loopback 0x1400) pc' w') = AtInner
      /\ exists rest : list call,
          trace (snd (monitor_tick 0 0x1400 (loopback 0x1400) pc' w'))
          = trace w' ++
            CAN_Initialize PCAN_USBBUS1 PCAN_BAUD_250K PCAN_USB 0 0 :: rest).
Proof.
  apply (monitor_hardware_removed 0 0x1400 (loopback 0x1400)
                                  AtOuter connected_world).
  - right; split; reflexivity.
  - reflexivity.
  - reflexivity.
Defined.

(** The frame 0x123 with eight data bytes, written and read back. *)
Lemma can_read_can_write_round_trip_witness :
  snd (fst (can_read (loopback 0) can_message.zero
                     (snd (can_write 0 (loopback 0) frame_0x123 fresh_world))))
  = frame_0x123.
Proof.
  apply (can_read_can_write_round_trip 0 (loopback 0) frame_0x123
                                       can_message.zero fresh_world).
  - unfold valid_frame; cbn. repeat split; lia.
  - reflexivity.
  - reflexivity.
Defined.

(** Node id 200 is sent with identifier 0x600 + 200 mod 0x7F. *)
Lemma write_sdo_identifier_witness :
  exists cob_id : Z,
    written_ids (trace (snd (write_sdo 0 0 (loopback 0) 0x20 0 4 0 200
                                       (replicate 8 0) fresh_world)))
      = written_ids (trace fresh_world) ++ [cob_id]
    /\ 0x600 <= cob_id <= 0x67F
    /\ cob_id = 0x600 + (if 0x7F <? 200 then 200 mod 0x7F else 200).
Proof.
  apply (write_sdo_identifier 0 0 (loopback 0) 0x20 0 4 0 200
                              (replicate 8 0) fresh_world).
  lia.
Defined.

(** The state of the C3 witness is one the thread reaches: started on
    the fresh world with no adapter present, one tick, then shutdown. *)
Lemma stopped_retrying_reachable :
  reachable 0 0x1400 (loopback 0x1400) fresh_world AtInner
            stopped_retrying_world.
Proof.
  pose proof (reach_entry 0 0x1400 (loopback 0x1400) fresh_world) as H0.
  pose proof (reach_tick _ _ _ _ _ _ H0) as H1.
  exact (reach_interference _ _ _ _ _ _ _ H1 (main_stops _ _)).
Qed.

(** A thousand ticks after shutdown the thread is still retrying. *)
Lemma retry_loop_ignores_stop_witness :
  fst (monitor_run 0 0x1400 (loopback 0x1400) 1000 AtInner
                   stopped_retrying_world) = AtInner
  /\ core.is_running
       (the_core (snd (monitor_run 0 0x1400 (loopback 0x1400) 1000 AtInner
                                   stopped_retrying_world))) = false
  /\ List.length
       (open_rates
          (trace (snd (monitor_run 0 0x1400 (loopback 0x1400) 1000 AtInner
                                   stopped_retrying_world))))
     = (List.length (open_rates (trace stopped_retrying_world)) + 1000)%nat.
Proof.
  apply (retry_loop_ignores_stop 0 0x1400 (loopback 0x1400) 1000
                                 stopped_retrying_world).
  - reflexivity.
  - reflexivity.
  - intros t rate st. subst st. cbn. discriminate.
Defined.

(** ** The further properties at concrete inputs *)

(** An empty receive queue (status 0x20, buffer untouched): the message
    is overwritten with zeros all the same. *)
Lemma can_read_overwrites_witness :
  can_read (loopback 0x20) frame_0x123 fresh_world
  = ((0x20, can_message.mk 0 0 (replicate 8 0)),
     {| the_core := fresh_core; trace := [CAN_Read PCAN_USBBUS1] |}).
Proof.
  apply (can_read_overwrites (loopback 0x20) frame_0x123 fresh_world);
    reflexivity.
Defined.

Lemma encode_decode_witness :
  encode 0 (decode wire_0x123 can_message.zero) = wire_0x123.
Proof.
  apply (encode_decode 0 wire_0x123 can_message.zero).
  - cbn. lia.
  - reflexivity.
  - reflexivity.
  - reflexivity.
Defined.

(** With index 14 stored one row is marked, the last one. *)
Lemma help_table_marks_one_row_witness :
  exists label : string,
    active_rows
      (trace (snd (can_print_baud_rate_help (loopback 0) CORE index14_world)))
      = active_rows (trace index14_world) ++ [label]
    /\ help_commands !! Z.to_nat (Z.min (core.baud_rate (the_core index14_world)) 13)
       = Some label
    /\ the_core (snd (can_print_baud_rate_help (loopback 0) CORE index14_world))
       = the_core index14_world.
Proof.
  apply (help_table_marks_one_row (loopback 0) index14_world). cbn. lia.
Defined.

Lemma switch_baud_rate_injective_witness : (5 : Z) = 5.
Proof.
  apply (switch_baud_rate_injective 5 5); [lia | lia | reflexivity].
Defined.

(** The adapter is present: the first attempt, at index 0, succeeds. *)
Lemma monitor_open_success_witness :
  let w' := snd (monitor_tick 0 0x1400 (loopback 0) AtOuter fresh_world) in
  fst (monitor_tick 0 0x1400 (loopback 0) AtOuter fresh_world) = AtInner
  /\ the_core w' = core.mk true true 0 0 0
  /\ trace w' = [CAN_Initialize PCAN_USBBUS1 PCAN_BAUD_1M PCAN_USB 0 0;
                 CAN_GetErrorText 0 0x09;
                 c_log LOG_SUCCESS "CAN successfully initialised";
                 c_print_prompt;
                 SDL_Delay 10]
  /\ fst (monitor_tick 0 0x1400 (loopback 0) AtInner w') = AtOuter
  /\ open_rates (trace (snd (monitor_tick 0 0x1400 (loopback 0) AtInner w')))
     = open_rates (trace w')
  /\ status_polls (trace (snd (monitor_tick 0 0x1400 (loopback 0) AtInner w')))
     = status_polls (trace w') ++ [PCAN_USBBUS1].
Proof.
  apply (monitor_open_success 0 0x1400 (loopback 0) AtOuter fresh_world).
  - right; split; reflexivity.
  - reflexivity.
  - reflexivity.
Defined.

(** A hundred ticks on an open channel whose status stays 0. *)
Lemma monitor_stays_connected_witness :
  let w' := snd (monitor_run 0 0x1400 (loopback 0) 100 AtOuter connected_world) in
  core.is_can_initialised (the_core w') = true
  /\ open_rates (trace w') = open_rates (trace connected_world)
  /\ uninitialize_calls (trace w') = uninitialize_calls (trace connected_world)
  /\ List.length (status_polls (trace w'))
     = (List.length (status_polls (trace connected_world)) + 100)%nat.
Proof.
  apply (monitor_stays_connected 0 0x1400 (loopback 0) 100 AtOuter
                                 connected_world).
  - right; split; reflexivity.
  - reflexivity.
  - reflexivity.
  - intros t. cbn. discriminate.
Defined.

(** Index 5 requested on the open channel: the next tick opens at
    100 kBit/s. *)
Lemma new_rate_used_on_next_tick_witness :
  let w1 := snd (can_set_baud_rate (loopback 0) 5 CORE connected_world) in
  fst (monitor_tick 0 0x1400 (loopback 0) AtOuter w1) = AtInner
  /\ open_rates (trace (snd (monitor_tick 0 0x1400 (loopback 0) AtOuter w1)))
     = open_rates (trace connected_world) ++ [PCAN_BAUD_100K].
Proof.
  apply (new_rate_used_on_next_tick 0 0x1400 (loopback 0) 5 AtOuter
                                    connected_world).
  right; split; reflexivity.
Defined.

Lemma monitor_tick_sleeps_once_witness :
  delays (trace (snd (monitor_tick 0 0x1400 (loopback 0x1400) AtOuter
                                   connected_world)))
  = delays (trace connected_world) ++ [10]
  /\ last (trace (snd (monitor_tick 0 0x1400 (loopback 0x1400) AtOuter
                                    connected_world)))
     = Some (SDL_Delay 10).
Proof.
  apply (monitor_tick_sleeps_once 0 0x1400 (loopback 0x1400) AtOuter
                                  connected_world).
  right; split; reflexivity.
Defined.

(** Shutdown asked for right after a successful open: one status poll,
    then the thread returns 0. *)
Lemma connected_loop_observes_stop_witness :
  fst (monitor_tick 0 0x1400 (loopback 0) AtInner stopped_connected_world)
  = AtOuter
  /\ fst (monitor_run 0 0x1400 (loopback 0) 2 AtInner stopped_connected_world)
     = Returned 0.
Proof.
  apply (connected_loop_observes_stop 0 0x1400 (loopback 0) AtInner
                                      stopped_connected_world).
  - left; reflexivity.
  - reflexivity.
  - reflexivity.
Defined.

(** No adapter (status 0x1400): the attempt is silent. *)
Lemma monitor_open_failure_witness :
  monitor_tick 0 0x1400 (loopback 0x1400) AtOuter fresh_world
  = (AtInner,
     {| the_core := core.mk true false 0x1400 0 0;
        trace := [CAN_Initialize PCAN_USBBUS1 PCAN_BAUD_1M PCAN_USB 0 0;
                  CAN_GetErrorText 0x1400 0x09;
                  SDL_Delay 10] |}).
Proof.
  apply (monitor_open_failure 0 0x1400 (loopback 0x1400) AtOuter fresh_world).
  - right; split; reflexivity.
  - reflexivity.
  - cbn. discriminate.
Defined.

(** Index 5 is requested while the first open attempt, at index 0, is
    under way: fifty ticks later the channel is still open at 1 MBit/s
    and the stored index is 5. *)
Lemma rate_change_during_open_is_lost_witness :
  let w1 := snd (attempt_open_call (loopback 0) fresh_world) in
  let w2 := snd (can_set_baud_rate (loopback 0) 5 CORE w1) in
  let w3 := snd (attempt_open_rest 0 (loopback 0) w2) in
  let w4 := snd (monitor_run 0 0x1400 (loopback 0) 50 AtInner w3) in
  attempt_open 0 (loopback 0) fresh_world
  = bind (attempt_open_call (loopback 0))
         (fun _ => attempt_open_rest 0 (loopback 0)) fresh_world
  /\ trace w2 = trace fresh_world
                ++ [CAN_Initialize PCAN_USBBUS1 PCAN_BAUD_1M PCAN_USB 0 0]
  /\ core.baud_rate (the_core w4) = 5
  /\ core.is_can_initialised (the_core w4) = true
  /\ open_rates (trace w4) = open_rates (trace fresh_world) ++ [PCAN_BAUD_1M]
  /\ uninitialize_calls (trace w4) = uninitialize_calls (trace fresh_world).
Proof.
  apply (rate_change_during_open_is_lost 0 0x1400 (loopback 0) 5 50 fresh_world).
  - reflexivity.
  - reflexivity.
  - intros t. cbn. discriminate.
Defined.
